(** * Chat synchronisation and read-state subsystem

    A shallow embedding of [src/pages/Chat.tsx] (the [Chat] page) and of the
    [ChatBox] component, over an explicit model of the hosted message store.

    - JavaScript strings are [string]s; every character is one code unit
      (the code units 0..255 are the ones [ascii] can hold).
    - Timestamps are integers (milliseconds), identifiers are strings.
    - A nullable boolean column is read the way the code reads it
      ([!msg.read], [msg.read || false]): null counts as [false].
    - Asynchronous functions are run to completion at the moment their
      awaited query resolves; the in-flight message fetches of the page are
      kept in an explicit list so that their resolution order is a parameter. *)

From Stdlib Require Import List String Ascii ZArith Bool Arith Lia.
From Stdlib Require Import Sorting.Sorted Sorting.Permutation DecimalString.
Import ListNotations.
Open Scope string_scope.
Open Scope list_scope.

(** ** JavaScript values *)

Module Js.

Inductive Val : Type :=
  | Undefined
  | Bool (b : bool)
  | Num (z : Z)
  | Str (s : string).

(** An object literal, or a row as the store returns it: keys in order. *)
Definition Obj : Type := list (string * Val).

(** [o.k]: a missing property reads as [undefined]. *)
Definition get (o : Obj) (k : string) : Val :=
  match find (fun kv => String.eqb (fst kv) k) o with
  | Some kv => snd kv
  | None => Undefined
  end.

(** ToBoolean. *)
Definition truthy (v : Val) : bool :=
  match v with
  | Undefined => false
  | Bool b => b
  | Num z => negb (Z.eqb z 0)
  | Str s => negb (String.eqb s "")
  end.

(** [a === b]. *)
Definition strict_eq (a b : Val) : bool :=
  match a, b with
  | Undefined, Undefined => true
  | Bool x, Bool y => Bool.eqb x y
  | Num x, Num y => Z.eqb x y
  | Str x, Str y => String.eqb x y
  | _, _ => false
  end.

Definition as_string (v : Val) : option string :=
  match v with Str s => Some s | _ => None end.

Definition as_num (v : Val) : option Z :=
  match v with Num z => Some z | _ => None end.

(** WhiteSpace and LineTerminator code points below 256:
    TAB, LF, VT, FF, CR, SP and NBSP. *)
Definition isWhiteSpace (c : ascii) : bool :=
  let n := nat_of_ascii c in
  (Nat.leb 9 n && Nat.leb n 13) || Nat.eqb n 32 || Nat.eqb n 160.

Fixpoint trimStart (s : string) : string :=
  match s with
  | EmptyString => EmptyString
  | String c r => if isWhiteSpace c then trimStart r else s
  end.

(** Drops the trailing white space: a white-space character is kept only
    when something is left after it. *)
Fixpoint trimEnd (s : string) : string :=
  match s with
  | EmptyString => EmptyString
  | String c r =>
      match trimEnd r with
      | EmptyString => if isWhiteSpace c then EmptyString else String c EmptyString
      | r' => String c r'
      end
  end.

(** [s.trim()]. *)
Definition trim (s : string) : string := trimEnd (trimStart s).

(** A string used as a condition: true unless it is empty. *)
Definition nonempty (s : string) : bool := negb (String.eqb s "").

Fixpoint whitespaceOnly (s : string) : bool :=
  match s with
  | EmptyString => true
  | String c r => isWhiteSpace c && whitespaceOnly r
  end.

End Js.

(** ** The message store *)

Module Store.

Record ProfileRow : Type := {
  profile_id : string;
  username : option string            (* None: the column is null *)
}.

Record ChatRow : Type := {
  chat_id : string;
  user1_id : string;
  user2_id : string;
  created_at : Z
}.

Record MessageRow : Type := {
  msg_id : string;
  msg_chat_id : string;
  sender_id : string;
  receiver_id : string;
  msg_content : string;
  msg_timestamp : Z;
  msg_read : bool
}.

Record t : Type := {
  profiles : list ProfileRow;
  chats : list ChatRow;
  messages : list MessageRow
}.

(** Ordering clauses, as a stable insertion sort on the result rows. *)
Fixpoint insert_by {A} (le : A -> A -> bool) (x : A) (l : list A) : list A :=
  match l with
  | [] => [x]
  | y :: r => if le x y then x :: y :: r else y :: insert_by le x r
  end.

Definition order_by {A} (le : A -> A -> bool) (l : list A) : list A :=
  fold_right (insert_by le) [] l.

(** [.single()]: the row when exactly one matches, no data otherwise. *)
Definition single {A} (rows : list A) : option A :=
  match rows with
  | [r] => Some r
  | _ => None
  end.

(** [from('profiles').select('username').eq('id', id).single()] *)
Definition profile_by_id (db : t) (id : string) : option ProfileRow :=
  single (filter (fun p => String.eqb (profile_id p) id) (profiles db)).

(** A message row as an object with all its columns. *)
Definition message_object (m : MessageRow) : Js.Obj :=
  [ ("id", Js.Str (msg_id m));
    ("chat_id", Js.Str (msg_chat_id m));
    ("sender_id", Js.Str (sender_id m));
    ("receiver_id", Js.Str (receiver_id m));
    ("content", Js.Str (msg_content m));
    ("timestamp", Js.Num (msg_timestamp m));
    ("read", Js.Bool (msg_read m)) ].

(** [select(cols)]: only the named columns are returned. *)
Definition select (cols : list string) (o : Js.Obj) : Js.Obj :=
  filter (fun kv => existsb (String.eqb (fst kv)) cols) o.

Definition messages_in (db : t) (c : string) : list MessageRow :=
  filter (fun m => String.eqb (msg_chat_id m) c) (messages db).

(** A chat row joined to its messages: [*, messages:messages(content,
    timestamp, read)].  The embedded rows carry no ordering clause and
    come in the order the table holds them. *)
Record JoinedChat : Type := {
  jc_chat : ChatRow;
  jc_messages : list Js.Obj
}.

Definition join_messages (db : t) (c : ChatRow) : JoinedChat :=
  {| jc_chat := c;
     jc_messages :=
       map (fun m => select ["content"; "timestamp"; "read"] (message_object m))
           (messages_in db (chat_id c)) |}.

Definition created_desc (a b : ChatRow) : bool :=
  Z.leb (created_at b) (created_at a).

(** [.or(user1_id.eq.U,user2_id.eq.U).order('created_at', desc)] *)
Definition chats_of (db : t) (uid : string) : list ChatRow :=
  order_by created_desc
    (filter (fun c => String.eqb (user1_id c) uid || String.eqb (user2_id c) uid)
            (chats db)).

Definition timestamp_asc (a b : MessageRow) : bool :=
  Z.leb (msg_timestamp a) (msg_timestamp b).

(** [from('messages').select('*').eq('chat_id', c).order('timestamp', asc)] *)
Definition messages_of (db : t) (c : string) : list MessageRow :=
  order_by timestamp_asc (messages_in db c).

Definition mark_read (m : MessageRow) : MessageRow :=
  {| msg_id := msg_id m; msg_chat_id := msg_chat_id m;
     sender_id := sender_id m; receiver_id := receiver_id m;
     msg_content := msg_content m; msg_timestamp := msg_timestamp m;
     msg_read := true |}.

(** The effect of an update filtered by [in('id', ids)] on one row. *)
Definition mark_read_in (ids : list string) (m : MessageRow) : MessageRow :=
  if existsb (String.eqb (msg_id m)) ids then mark_read m else m.

(** [update({ read: true }).in('id', ids)] *)
Definition update_read (ids : list string) (db : t) : t :=
  {| profiles := profiles db;
     chats := chats db;
     messages := map (mark_read_in ids) (messages db) |}.

(** The record the composer hands to [insert]. *)
Record NewMessage : Type := {
  new_chat_id : string;
  new_sender_id : string;
  new_receiver_id : string;
  new_content : string;
  new_read : bool
}.

(** The writes a client issues. *)
Inductive Call : Type :=
  | Insert (r : NewMessage)
  | UpdateReadEq (id : string)           (* update({read:true}).eq('id', id) *)
  | UpdateReadIn (ids : list string).    (* update({read:true}).in('id', ids) *)

(** The read-state updates applied to the table (an insert needs the
    identity and timestamp the store assigns and is applied by [insert]). *)
Definition apply_update (c : Call) (db : t) : t :=
  match c with
  | Insert _ => db
  | UpdateReadEq id => update_read [id] db
  | UpdateReadIn ids => update_read ids db
  end.

Definition insert (id : string) (ts : Z) (r : NewMessage) (db : t) : t :=
  {| profiles := profiles db;
     chats := chats db;
     messages :=
       messages db ++
       [ {| msg_id := id; msg_chat_id := new_chat_id r;
            sender_id := new_sender_id r; receiver_id := new_receiver_id r;
            msg_content := new_content r; msg_timestamp := ts;
            msg_read := new_read r |} ] |}.

(** Row [m'] is row [m] with at most its read flag raised. *)
Definition read_raised (m m' : MessageRow) : Prop :=
  msg_id m' = msg_id m /\ msg_chat_id m' = msg_chat_id m /\
  sender_id m' = sender_id m /\ receiver_id m' = receiver_id m /\
  msg_content m' = msg_content m /\ msg_timestamp m' = msg_timestamp m /\
  (msg_read m = true -> msg_read m' = true).

(** The row an insert creates. *)
Definition inserted_row (id : string) (ts : Z) (r : NewMessage) : MessageRow :=
  {| msg_id := id; msg_chat_id := new_chat_id r;
     sender_id := new_sender_id r; receiver_id := new_receiver_id r;
     msg_content := new_content r; msg_timestamp := ts;
     msg_read := new_read r |}.

End Store.

(** ** Client-side types ([lib/types.ts]) *)

Module FileAttachment.
Record t : Type := {
  id : string;
  name : string;
  type : string;
  url : string;
  size : Z
}.
End FileAttachment.

Module MessageType.
Record t : Type := {
  id : string;
  senderId : string;
  senderName : string;
  receiverId : string;
  content : string;
  timestamp : Z;
  read : bool;
  attachment : option FileAttachment.t
}.
End MessageType.

Module ChatType.
Record t : Type := {
  id : string;
  participantId : string;
  participantName : string;
  lastMessage : option string;
  lastMessageTime : option Z;
  unreadCount : nat
}.
End ChatType.

(** ** The chat page ([pages/Chat.tsx]) *)

Module Chat.

(** The component state, and the message fetches that were started and
    have not resolved yet (by conversation id, oldest first). *)
Record State : Type := {
  chats : list ChatType.t;
  messages : list MessageType.t;
  activeChat : option ChatType.t;
  isLoading : bool;
  inflight : list string
}.

(** The state of the first render. *)
Definition init : State :=
  {| chats := []; messages := []; activeChat := None; isLoading := true;
     inflight := [] |}.

Definition setChats (v : list ChatType.t) (st : State) : State :=
  {| chats := v; messages := messages st; activeChat := activeChat st;
     isLoading := isLoading st; inflight := inflight st |}.

Definition setMessages (v : list MessageType.t) (st : State) : State :=
  {| chats := chats st; messages := v; activeChat := activeChat st;
     isLoading := isLoading st; inflight := inflight st |}.

Definition setActiveChat (v : option ChatType.t) (st : State) : State :=
  {| chats := chats st; messages := messages st; activeChat := v;
     isLoading := isLoading st; inflight := inflight st |}.

Definition setIsLoading (v : bool) (st : State) : State :=
  {| chats := chats st; messages := messages st; activeChat := activeChat st;
     isLoading := v; inflight := inflight st |}.

Definition setInflight (v : list string) (st : State) : State :=
  {| chats := chats st; messages := messages st; activeChat := activeChat st;
     isLoading := isLoading st; inflight := v |}.

(** [data?.username || 'Unknown User'] *)
Definition displayName (data : option Store.ProfileRow) : string :=
  match data with
  | Some p =>
      match Store.username p with
      | Some s => if Js.nonempty s then s else "Unknown User"
      | None => "Unknown User"
      end
  | None => "Unknown User"
  end.

(** The object built for a stored message, in [fetchMessages] and in the
    insert handler alike. *)
Definition formatMessage (db : Store.t) (m : Store.MessageRow) : MessageType.t :=
  {| MessageType.id := Store.msg_id m;
     MessageType.senderId := Store.sender_id m;
     MessageType.senderName := displayName (Store.profile_by_id db (Store.sender_id m));
     MessageType.receiverId := Store.receiver_id m;
     MessageType.content := Store.msg_content m;
     MessageType.timestamp := Store.msg_timestamp m;
     MessageType.read := Store.msg_read m || false;
     MessageType.attachment := None |}.

(** The body of the [map] in [fetchChats]. *)
Definition processChat (db : Store.t) (uid : string) (chat : Store.JoinedChat)
  : ChatType.t :=
  let row := Store.jc_chat chat in
  let isUser1 := String.eqb (Store.user1_id row) uid in
  let participantId := if isUser1 then Store.user2_id row else Store.user1_id row in
  let participantName := displayName (Store.profile_by_id db participantId) in
  let messages := Store.jc_messages chat in
  let lastMessage := nth_error messages 0 in
  let unreadCount :=
    List.length
      (filter (fun msg => negb (Js.truthy (Js.get msg "read"))
                          && Js.strict_eq (Js.get msg "receiver_id") (Js.Str uid))
              messages) in
  {| ChatType.id := Store.chat_id row;
     ChatType.participantId := participantId;
     ChatType.participantName := participantName;
     ChatType.lastMessage :=
       match lastMessage with
       | Some m => Js.as_string (Js.get m "content")
       | None => None
       end;
     ChatType.lastMessageTime :=
       match lastMessage with
       | Some m => Js.as_num (Js.get m "timestamp")
       | None => None
       end;
     ChatType.unreadCount := unreadCount |}.

Inductive EventType : Type := INSERT | UPDATE | DELETE.

(** A change notification of the [messages] table. *)
Record Payload : Type := {
  eventType : EventType;
  new : Store.MessageRow
}.

Section Page.

(** [useAuth().user] (its id) and [location.state?.activeChatId]. *)
Variable user : option string.
Variable nav : option string.

(** [fetchMessages(chatId)] up to its first [await]: without a user it
    returns at once, otherwise the query is in flight. *)
Definition fetchMessages (chatId : string) (st : State) : State :=
  match user with
  | None => st
  | Some _ => setInflight (inflight st ++ [chatId]) st
  end.

(** The rest of [fetchMessages(chatId)], run when the fetch has its rows
    and sender names and reaches [setMessages]: the feed is replaced and the
    unread messages of the others are marked read in one update. *)
Definition fetchMessages_resolved (uid chatId : string) (db : Store.t) (st : State)
  : State * Store.t * list Store.Call :=
  let messagesData := Store.messages_of db chatId in
  let formattedMessages := map (formatMessage db) messagesData in
  let st' := setMessages formattedMessages st in
  let unreadMessages :=
    map Store.msg_id
        (filter (fun msg => negb (Store.msg_read msg)
                            && negb (String.eqb (Store.sender_id msg) uid))
                messagesData) in
  if Nat.ltb 0 (List.length unreadMessages)
  then (st', Store.update_read unreadMessages db, [Store.UpdateReadIn unreadMessages])
  else (st', db, []).

(** [location.state && location.state.activeChatId] *)
Definition navTarget : option string :=
  match nav with
  | Some a => if Js.nonempty a then Some a else None
  | None => None
  end.

Definition fetchChats (db : Store.t) (st : State) : State :=
  match user with
  | None => setIsLoading false st
  | Some uid =>
      let chatsData := map (Store.join_messages db) (Store.chats_of db uid) in
      let processedChats := map (processChat db uid) chatsData in
      let st1 := setChats processedChats (setIsLoading true st) in
      let st2 :=
        match navTarget with
        | Some target =>
            match find (fun chat => String.eqb (ChatType.id chat) target) processedChats with
            | Some chatFromState =>
                fetchMessages (ChatType.id chatFromState)
                              (setActiveChat (Some chatFromState) st1)
            | None => st1
            end
        | None =>
            match processedChats with
            | first :: _ =>
                fetchMessages (ChatType.id first) (setActiveChat (Some first) st1)
            | [] => st1
            end
        end in
      setIsLoading false st2
  end.

(** The filter of the [messages] subscription, computed from the
    [activeChat] of the render whose effect opens the channel. *)
Definition messageFilter (st : State) : option string :=
  match activeChat st with
  | Some c => Some (ChatType.id c)
  | None => None
  end.

(** Whether the store delivers a change of row [m] under a filter. *)
Definition delivered (filter : option string) (m : Store.MessageRow) : bool :=
  match filter with
  | Some c => String.eqb (Store.msg_chat_id m) c
  | None => true
  end.

(** The callback of the [messages] subscription. *)
Definition onMessageChange (payload : Payload) (db : Store.t) (st : State)
  : State * Store.t * list Store.Call :=
  let '(st1, db1, calls) :=
    match eventType payload with
    | INSERT =>
        let row := new payload in
        let newMessage := formatMessage db row in
        let st1 := setMessages (messages st ++ [newMessage]) st in
        let forMe :=
          match user with
          | Some uid => String.eqb (Store.receiver_id row) uid
          | None => false
          end in
        if forMe && negb (Store.msg_read row)
        then (st1, Store.update_read [Store.msg_id row] db,
              [Store.UpdateReadEq (Store.msg_id row)])
        else (st1, db, [])
    | _ => (st, db, [])
    end in
  (fetchChats db1 st1, db1, calls).

Definition handleChatSelect (chat : ChatType.t) (st : State) : State :=
  fetchMessages (ChatType.id chat) (setActiveChat (Some chat) st).

(** The page's [handleSendMessage]: the insert it issues, if any.  No
    component state is set. *)
Definition handleSendMessage (content : string)
           (attachment : option FileAttachment.t) (st : State)
  : list Store.Call :=
  match user, activeChat st with
  | Some uid, Some active =>
      [ Store.Insert
          {| Store.new_chat_id := ChatType.id active;
             Store.new_sender_id := uid;
             Store.new_receiver_id := ChatType.participantId active;
             Store.new_content := content;
             Store.new_read := false |} ]
  | _, _ => []
  end.

Definition handleUserAdded (chatId userId username : string) (st : State) : State :=
  let newChat :=
    {| ChatType.id := chatId; ChatType.participantId := userId;
       ChatType.participantName := username; ChatType.lastMessage := None;
       ChatType.lastMessageTime := None; ChatType.unreadCount := 0 |} in
  fetchMessages chatId (setActiveChat (Some newChat) (setChats (newChat :: chats st) st)).

(** *** Selections and fetch resolutions, in any order *)

Inductive Event : Type :=
  | Select (chat : ChatType.t)     (* the user clicks a conversation *)
  | Resolve (k : nat).             (* the k-th fetch in flight resolves *)

Fixpoint remove_nth {A} (k : nat) (l : list A) : list A :=
  match k, l with
  | _, [] => []
  | O, _ :: r => r
  | S k', x :: r => x :: remove_nth k' r
  end.

(** A world: the page, the store, and the conversations whose fetch
    has resolved so far (latest last). *)
Definition World : Type := (State * Store.t * list string)%type.

Definition step (ev : Event) (w : World) : option World :=
  let '(st, db, resolved) := w in
  match ev with
  | Select chat => Some (handleChatSelect chat st, db, resolved)
  | Resolve k =>
      match user, nth_error (inflight st) k with
      | Some uid, Some chatId =>
          let st0 := setInflight (remove_nth k (inflight st)) st in
          let '(st', db', _) := fetchMessages_resolved uid chatId db st0 in
          Some (st', db', resolved ++ [chatId])
      | _, _ => None
      end
  end.

Fixpoint run (evs : list Event) (w : World) : option World :=
  match evs with
  | [] => Some w
  | ev :: rest =>
      match step ev w with
      | Some w' => run rest w'
      | None => None
      end
  end.


End Page.

End Chat.

(** ** The conversation pane ([components/ChatBox.tsx]) *)

Module ChatBox.

(** The two [useState] cells of the component. *)
Record State : Type := {
  newMessage : string;
  filePreview : option FileAttachment.t
}.

(** What the file input hands over: the first selected file, if any. *)
Record File : Type := {
  file_name : string;
  file_type : string;
  file_size : Z
}.

(** [filePreview] used as a condition. *)
Definition staged (f : option FileAttachment.t) : bool :=
  match f with
  | Some _ => true
  | None => false
  end.

(** [handleSendMessage]: the new state and the calls of [onSendMessage]. *)
Definition handleSendMessage (st : State)
  : State * list (string * option FileAttachment.t) :=
  if Js.nonempty (Js.trim (newMessage st)) || staged (filePreview st)
  then ({| newMessage := ""; filePreview := None |},
        [ (newMessage st, filePreview st) ])
  else (st, []).

(** The [disabled] attribute of the submit button. *)
Definition submitDisabled (st : State) : bool :=
  negb (Js.nonempty (Js.trim (newMessage st)))
  && negb (staged (filePreview st)).

(** [handleFileChange], given the clock and the object URL the browser
    creates for the file. *)
Definition handleFileChange (file : option File) (now : Z) (fileUrl : string)
           (st : State) : State :=
  match file with
  | None => st
  | Some f =>
      {| newMessage := newMessage st;
         filePreview :=
           Some {| FileAttachment.id :=
                     String.append "file-" (DecimalString.NilZero.string_of_int (Z.to_int now));
                   FileAttachment.name := file_name f;
                   FileAttachment.type := file_type f;
                   FileAttachment.url := fileUrl;
                   FileAttachment.size := file_size f |} |}
  end.

Definition handleRemoveFile (st : State) : State :=
  {| newMessage := newMessage st; filePreview := None |}.

(** [markMessagesAsRead], over the values its effect closed over. *)
Definition markMessagesAsRead (user : option string)
           (messages : list MessageType.t) (chatId : string) : list Store.Call :=
  match user with
  | Some uid =>
      if Nat.ltb 0 (List.length messages) && Js.nonempty chatId
      then
        let unreadMessages :=
          filter (fun msg => negb (MessageType.read msg)
                             && negb (String.eqb (MessageType.senderId msg) uid))
                 messages in
        if Nat.ltb 0 (List.length unreadMessages)
        then [ Store.UpdateReadIn (map MessageType.id unreadMessages) ]
        else []
      else []
  | None => []
  end.

(** *** The debounced effect

    The dependencies of the effect are [messages], [user] and [chat.id];
    each time one changes, the clean-up of the previous run clears its
    timer and the new run arms one for 500 ms. *)

Record Deps : Type := {
  dep_user : option string;
  dep_messages : list MessageType.t;
  dep_chatId : string
}.

(** The timers of the event loop that belong to this effect, and the
    callbacks that ran (with the time they were due). *)
Record Timers : Type := {
  nextId : nat;
  armed : list (nat * (Z * Deps));
  cleanup : option nat;
  fired : list (Z * Deps)
}.

Definition fresh : Timers :=
  {| nextId := 0; armed := []; cleanup := None; fired := [] |}.

Definition delay : Z := 500.

Definition clearTimeout (id : option nat) (T : Timers) : Timers :=
  match id with
  | None => T
  | Some i =>
      {| nextId := nextId T;
         armed := filter (fun e => negb (Nat.eqb (fst e) i)) (armed T);
         cleanup := cleanup T;
         fired := fired T |}
  end.

Definition setTimeout (d : Deps) (now : Z) (T : Timers) : nat * Timers :=
  (nextId T,
   {| nextId := S (nextId T);
      armed := armed T ++ [ (nextId T, ((now + delay)%Z, d)) ];
      cleanup := cleanup T;
      fired := fired T |}).

(** The event loop reaches time [now]: the timers that are due run. *)
Definition advance (now : Z) (T : Timers) : Timers :=
  {| nextId := nextId T;
     armed := filter (fun e => negb (Z.leb (fst (snd e)) now)) (armed T);
     cleanup := cleanup T;
     fired := fired T ++ map snd (filter (fun e => Z.leb (fst (snd e)) now) (armed T)) |}.

(** A change of the dependencies at time [now]. *)
Definition change (now : Z) (d : Deps) (T : Timers) : Timers :=
  let T0 := advance now T in
  (* clean-up of the previous run *)
  let T1 := clearTimeout (cleanup T0) T0 in
  (* the new run: its own [timeoutId] is still undefined when cleared *)
  let T2 := clearTimeout None T1 in
  let '(timeoutId, T3) := setTimeout d now T2 in
  {| nextId := nextId T3; armed := armed T3; cleanup := Some timeoutId;
     fired := fired T3 |}.

Fixpoint burst (changes : list (Z * Deps)) (T : Timers) : Timers :=
  match changes with
  | [] => T
  | (t, d) :: rest => burst rest (change t d T)
  end.



(** The clean-up the effect returns, run when the component unmounts. *)
Definition unmount (T : Timers) : Timers := clearTimeout (cleanup T) T.


End ChatBox.

(** The form submission end to end: [ChatBox.handleSendMessage] calling the
    page's [handleSendMessage] through [onSendMessage]. *)
Definition submit (user : option string) (page : Chat.State) (box : ChatBox.State)
  : ChatBox.State * list Store.Call :=
  let '(box', sends) := ChatBox.handleSendMessage box in
  (box', flat_map (fun s => Chat.handleSendMessage user (fst s) (snd s) page) sends).

(** ** What the specification asks of the conversation index and the feed *)

Module Spec.

(** The unread count of conversation [c] for viewer [v]: the messages of
    [c] with read = false and recipient [v]. *)
Definition unreadCount (db : Store.t) (c v : string) : nat :=
  List.length
    (filter (fun m => negb (Store.msg_read m) && String.eqb (Store.receiver_id m) v)
            (Store.messages_in db c)).

(** The most recent message of conversation [c] (the first one among
    equally recent messages). *)
Definition latestMessage (db : Store.t) (c : string) : option Store.MessageRow :=
  fold_left
    (fun acc m =>
       match acc with
       | None => Some m
       | Some a => if Z.ltb (Store.msg_timestamp a) (Store.msg_timestamp m)
                   then Some m else Some a
       end)
    (Store.messages_in db c) None.

(** The preview of an entry is taken from the most recent message. *)
Definition previewIsLatest (db : Store.t) (e : ChatType.t) : Prop :=
  match latestMessage db (ChatType.id e) with
  | Some m =>
      ChatType.lastMessage e = Some (Store.msg_content m) /\
      ChatType.lastMessageTime e = Some (Store.msg_timestamp m)
  | None => True
  end.

(** The time of the last activity in a conversation: its most recent
    message, or its creation when it has none. *)
Definition lastActivity (db : Store.t) (c : string) : Z :=
  match latestMessage db c with
  | Some m => Store.msg_timestamp m
  | None =>
      match find (fun r => String.eqb (Store.chat_id r) c) (Store.chats db) with
      | Some r => Store.created_at r
      | None => 0%Z
      end
  end.

Definition recentActivityFirst (db : Store.t) (l : list ChatType.t) : Prop :=
  StronglySorted
    (fun a b => (lastActivity db (ChatType.id b) <= lastActivity db (ChatType.id a))%Z) l.


(** The ids of the loaded messages addressed to [v] that are unread. *)
Definition unreadAddressedTo (v : string) (feed : list MessageType.t) : list string :=
  map MessageType.id
      (filter (fun m => negb (MessageType.read m) && String.eqb (MessageType.receiverId m) v)
              feed).

(** Every loaded message is between the viewer [v] and somebody else:
    exactly one of its sender and its recipient is [v]. *)
Definition twoParty (v : string) (feed : list MessageType.t) : Prop :=
  Forall (fun m => MessageType.senderId m <> v <-> MessageType.receiverId m = v) feed.

End Spec.

(** ** Concrete stores and runs *)

Module Examples.

Definition profiles : list Store.ProfileRow :=
  [ {| Store.profile_id := "V"; Store.username := Some "vera" |};
    {| Store.profile_id := "P"; Store.username := Some "paul" |};
    {| Store.profile_id := "Q"; Store.username := Some "quinn" |};
    {| Store.profile_id := "R"; Store.username := Some "rosa" |} ].

Definition message (id chat sender receiver content : string) (ts : Z) (read : bool)
  : Store.MessageRow :=
  {| Store.msg_id := id; Store.msg_chat_id := chat; Store.sender_id := sender;
     Store.receiver_id := receiver; Store.msg_content := content;
     Store.msg_timestamp := ts; Store.msg_read := read |}.

Definition chat (id u1 u2 : string) (created : Z) : Store.ChatRow :=
  {| Store.chat_id := id; Store.user1_id := u1; Store.user2_id := u2;
     Store.created_at := created |}.

(** One conversation between V and P with one unread message for V. *)
Definition dbUnread : Store.t :=
  {| Store.profiles := profiles;
     Store.chats := [ chat "c1" "V" "P" 100 ];
     Store.messages := [ message "m1" "c1" "P" "V" "hello" 200 false ] |}.

(** Two conversations of V: the older one, cX, has the latest activity. *)
Definition dbActivity : Store.t :=
  {| Store.profiles := profiles;
     Store.chats := [ chat "cX" "V" "P" 100; chat "cY" "Q" "V" 500 ];
     Store.messages :=
       [ message "x1" "cX" "P" "V" "first" 150 true;
         message "y1" "cY" "Q" "V" "hi" 600 true;
         message "x2" "cX" "V" "P" "latest" 900 true ] |}.


Definition entry (id participant name : string) : ChatType.t :=
  {| ChatType.id := id; ChatType.participantId := participant;
     ChatType.participantName := name; ChatType.lastMessage := None;
     ChatType.lastMessageTime := None; ChatType.unreadCount := 0 |}.



(** V talks to P in c1 (the newer conversation) and to Q in c2. *)
Definition dbTwo : Store.t :=
  {| Store.profiles := profiles;
     Store.chats := [ chat "c1" "V" "P" 200; chat "c2" "V" "Q" 100 ];
     Store.messages :=
       [ message "p0" "c1" "P" "V" "old" 150 true;
         message "q0" "c2" "Q" "V" "yo" 250 true ] |}.

(** The message P then sends to V in c1. *)
Definition arriving : Store.MessageRow :=
  message "p1" "c1" "P" "V" "new" 300 false.

Definition dbTwoAfterInsert : Store.t :=
  Store.insert "p1" 300
               {| Store.new_chat_id := "c1"; Store.new_sender_id := "P";
                  Store.new_receiver_id := "V"; Store.new_content := "new";
                  Store.new_read := false |}
               dbTwo.

Definition c2Entry : ChatType.t :=
  {| ChatType.id := "c2"; ChatType.participantId := "Q";
     ChatType.participantName := "quinn"; ChatType.lastMessage := Some "yo";
     ChatType.lastMessageTime := Some 250%Z; ChatType.unreadCount := 0 |}.

(** The page of V on [dbTwo]: mounted, the list loaded, the fetch of the
    default conversation resolved, then c2 selected and its fetch resolved. *)
Definition pageOnC2 : option Chat.World :=
  let st0 := Chat.fetchChats (Some "V") None dbTwo Chat.init in
  Chat.run (Some "V")
           [ Chat.Resolve 0; Chat.Select c2Entry; Chat.Resolve 0 ]
           (st0, dbTwo, []).


Definition outgoing : MessageType.t :=
  {| MessageType.id := "o1"; MessageType.senderId := "V";
     MessageType.senderName := "vera"; MessageType.receiverId := "P";
     MessageType.content := "pong"; MessageType.timestamp := 8%Z;
     MessageType.read := false; MessageType.attachment := None |}.



(** A text typed and a picture staged at time 17. *)
Definition withPhoto : ChatBox.State :=
  ChatBox.handleFileChange
    (Some {| ChatBox.file_name := "cat.png"; ChatBox.file_type := "image/png";
             ChatBox.file_size := 2048 |})
    17 "blob:1"
    {| ChatBox.newMessage := " hi "; ChatBox.filePreview := None |}.

End Examples.


(** ** The conversation list ([components/ChatList.tsx]) *)

Module ChatList.

(** Whether the unread badge of an entry is rendered: [chat.unreadCount > 0]. *)
Definition showsBadge (chat : ChatType.t) : bool :=
  Nat.ltb 0 (ChatType.unreadCount chat).

End ChatList.

(** ** The statistics card ([components/UserStatistics.tsx]) *)

Module UserStatistics.

Record LevelInfo : Type := {
  level : string;
  badge : string;
  color : string
}.

Definition getUserLevel (completed : Z) : LevelInfo :=
  if Z.leb 50 completed
  then {| level := "Expert"; badge := "Gold"; color := "bg-yellow-500" |}
  else if Z.leb 20 completed
  then {| level := "Pro"; badge := "Silver"; color := "bg-gray-400" |}
  else if Z.leb 5 completed
  then {| level := "Regular"; badge := "Bronze"; color := "bg-amber-600" |}
  else {| level := "Beginner"; badge := "New"; color := "bg-blue-500" |}.

(** The denominator shown beside "Progress to next level". *)
Definition nextTarget (userLevel : LevelInfo) : Z :=
  if String.eqb (level userLevel) "Beginner" then 5
  else if String.eqb (level userLevel) "Regular" then 20
  else if String.eqb (level userLevel) "Pro" then 50
  else 100.

End UserStatistics.

(** ** The leaderboard page ([pages/Leaderboard.tsx]) *)

Module Leaderboard.

Section Ratings.

(** Ratings are numbers that the page only compares: the type of numbers
    and its [>] are parameters. *)
Variable number : Type.
Variable gtb : number -> number -> bool.

(** A row of either query: [creator_id, creator_rating] of a task, or
    [doer_id, doer_rating] of a completed one.  [None] is null. *)
Record TaskRow : Type := {
  person_id : option string;
  person_rating : option number
}.

(** A value of [requestorMap] or [doerMap]. *)
Record Entry : Type := {
  entry_id : string;
  entry_rating : number;
  entry_tasksCount : nat
}.

Record LeaderboardUser : Type := {
  id : string;
  username : string;
  avatar_url : option string;
  rating : number;
  tasksCount : nat
}.

(** What [select('username, avatar_url')] returns. *)
Record Profile : Type := {
  profile_username : option string;
  profile_avatar_url : option string
}.

(** The guard of the [forEach]: the row counts when its id is truthy and
    its rating is a number. *)
Definition usable (task : TaskRow) : option (string * number) :=
  match person_id task, person_rating task with
  | Some i, Some r => if Js.nonempty i then Some (i, r) else None
  | _, _ => None
  end.

(** One step of the [forEach] on a map kept in insertion order: the entry
    of [i] is updated in place, or a new one is added at the end. *)
Fixpoint record_task (i : string) (r : number) (m : list Entry) : list Entry :=
  match m with
  | [] => [ {| entry_id := i; entry_rating := r; entry_tasksCount := 1 |} ]
  | existing :: rest =>
      if String.eqb (entry_id existing) i
      then {| entry_id := entry_id existing;
              entry_rating := if gtb r (entry_rating existing) then r
                              else entry_rating existing;
              entry_tasksCount := entry_tasksCount existing + 1 |} :: rest
      else existing :: record_task i r rest
  end.

Definition aggregate (tasksData : list TaskRow) : list Entry :=
  fold_left (fun m task =>
               match usable task with
               | Some (i, r) => record_task i r m
               | None => m
               end)
            tasksData [].

(** The profile query of the loop, [.eq('id', id).single()]. *)
Variable profileOf : string -> option Profile.

Definition toUser (data : Entry) : LeaderboardUser :=
  {| id := entry_id data;
     username :=
       match profileOf (entry_id data) with
       | Some p =>
           match profile_username p with
           | Some s => if Js.nonempty s then s else "Unknown User"
           | None => "Unknown User"
           end
       | None => "Unknown User"
       end;
     avatar_url :=
       match profileOf (entry_id data) with
       | Some p => profile_avatar_url p
       | None => None
       end;
     rating := entry_rating data;
     tasksCount := entry_tasksCount data |}.

(** [(a, b) => b.rating - a.rating] as an order: [a] stays before [b]
    unless [b] has the greater rating. *)
Definition byRating (a b : LeaderboardUser) : bool := negb (gtb (rating b) (rating a)).

Definition ranked (tasksData : list TaskRow) : list LeaderboardUser :=
  Store.order_by byRating (map toUser (aggregate tasksData)).

(** [.sort(...).slice(0, 10)] *)
Definition top (tasksData : list TaskRow) : list LeaderboardUser :=
  firstn 10 (ranked tasksData).

(** [requestorMap.get(i)] *)
Definition entryOf (i : string) (m : list Entry) : option Entry :=
  find (fun e => String.eqb (entry_id e) i) m.

(** The number of rows that count for person [i]. *)
Definition tasksOf (i : string) (tasksData : list TaskRow) : nat :=
  List.length
    (filter (fun task => match usable task with
                         | Some (j, _) => String.eqb j i
                         | None => false
                         end)
            tasksData).

End Ratings.

End Leaderboard.

(** ** More concrete runs *)

Module Scenarios.

(** c1 of [Examples.dbUnread] twice over: a second conversation holds a row
    with the same id. *)
Definition dbUniqueIds : Store.t :=
  {| Store.profiles := Examples.profiles;
     Store.chats := [ Examples.chat "c1" "V" "P" 100; Examples.chat "c2" "V" "Q" 50 ];
     Store.messages :=
       [ Examples.message "m1" "c1" "P" "V" "hello" 200 false;
         Examples.message "m2" "c2" "Q" "V" "hey" 300 false ] |}.

(** V opens c1 of [Examples.dbUnread] and the fetch resolves. *)
Definition openUnread : Chat.World :=
  Eval vm_compute in
    match Chat.run (Some "V")
                   [ Chat.Select (Examples.entry "c1" "P" "paul"); Chat.Resolve 0 ]
                   (Chat.init, Examples.dbUnread, []) with
    | Some w => w
    | None => (Chat.init, Examples.dbUnread, [])
    end.

Definition pageAfterList : Chat.State :=
  Chat.fetchChats (Some "V") None Examples.dbTwo Chat.init.

Definition typed (text : string) : ChatBox.State :=
  {| ChatBox.newMessage := text; ChatBox.filePreview := None |}.

Definition catFile : ChatBox.File :=
  {| ChatBox.file_name := "cat.png"; ChatBox.file_type := "image/png";
     ChatBox.file_size := 2048 |}.

Definition taskOf (i : string) (r : Z) : Leaderboard.TaskRow Z :=
  {| Leaderboard.person_id := Some i; Leaderboard.person_rating := Some r |}.

(** Tasks of three people; one row has no rating and one has no person. *)
Definition ratedTasks : list (Leaderboard.TaskRow Z) :=
  [ taskOf "P" 3; taskOf "Q" 5; taskOf "P" 4;
    {| Leaderboard.person_id := Some "R"; Leaderboard.person_rating := None |};
    {| Leaderboard.person_id := Some ""; Leaderboard.person_rating := Some 5%Z |};
    taskOf "P" 2 ].

Definition noProfile (i : string) : option Leaderboard.Profile := None.




End Scenarios.

(** * Properties *)

(** ** Lists, ordering clauses and strings *)

Lemma filter_none {A} (f : A -> bool) (l : list A) :
  (forall x, In x l -> f x = false) -> filter f l = [].
Proof.
  induction l as [|a l IH]; intros H; simpl; [reflexivity|].
  rewrite (H a (or_introl eq_refl)). apply IH. intros x Hx. apply H. now right.
Qed.

Lemma existsb_eqb_In (x : string) (l : list string) :
  existsb (String.eqb x) l = true <-> In x l.
Proof.
  rewrite existsb_exists. split.
  - intros [y [Hy He]]. apply String.eqb_eq in He. now subst.
  - intros H. exists x. split; [assumption | apply String.eqb_refl].
Qed.

Section OrderBy.

Context {A : Type} (le : A -> A -> bool).

Lemma insert_by_In x y l : In y (Store.insert_by le x l) <-> In y (x :: l).
Proof.
  induction l as [|a l IH]; simpl; [tauto|].
  destruct (le x a); simpl; [tauto|]. rewrite IH. simpl. tauto.
Qed.

Lemma order_by_In y l : In y (Store.order_by le l) <-> In y l.
Proof.
  induction l as [|a l IH]; simpl; [tauto|].
  rewrite insert_by_In. simpl. now rewrite IH.
Qed.

Lemma insert_by_length x l : List.length (Store.insert_by le x l) = S (List.length l).
Proof.
  induction l as [|a l IH]; simpl; [reflexivity|].
  destruct (le x a); simpl; [reflexivity | now rewrite IH].
Qed.

Hypothesis le_total : forall x y, le x y = false -> le y x = true.
Hypothesis le_trans : forall x y z, le x y = true -> le y z = true -> le x z = true.

Lemma insert_by_sorted x l :
  StronglySorted (fun a b => le a b = true) l ->
  StronglySorted (fun a b => le a b = true) (Store.insert_by le x l).
Proof.
  induction 1 as [|a l Hs IH Ha]; simpl.
  - constructor; constructor.
  - destruct (le x a) eqn:E.
    + constructor; [constructor; assumption|].
      constructor; [assumption|].
      rewrite Forall_forall in *. intros y Hy. eapply le_trans; eauto.
    + constructor; [assumption|].
      rewrite Forall_forall in *. intros y Hy.
      apply insert_by_In in Hy. destruct Hy as [<-|Hy]; auto.
Qed.

Lemma order_by_sorted l : StronglySorted (fun a b => le a b = true) (Store.order_by le l).
Proof.
  induction l as [|a l IH]; simpl; [constructor | now apply insert_by_sorted].
Qed.

End OrderBy.



Lemma created_desc_total x y :
  Store.created_desc x y = false -> Store.created_desc y x = true.
Proof. unfold Store.created_desc. intros H. apply Z.leb_gt in H. apply Z.leb_le. lia. Qed.

Lemma created_desc_trans x y z :
  Store.created_desc x y = true -> Store.created_desc y z = true ->
  Store.created_desc x z = true.
Proof.
  unfold Store.created_desc. intros H1 H2.
  apply Z.leb_le in H1, H2. apply Z.leb_le. lia.
Qed.

(** ** The conversation index *)

Lemma fetchChats_chats uid nav db st :
  Chat.chats (Chat.fetchChats (Some uid) nav db st)
  = map (fun row => Chat.processChat db uid (Store.join_messages db row))
        (Store.chats_of db uid).
Proof.
  unfold Chat.fetchChats. rewrite map_map.
  set (processed := map _ (Store.chats_of db uid)).
  destruct (Chat.navTarget nav) as [target|].
  - destruct (find _ processed); reflexivity.
  - destruct processed; reflexivity.
Qed.

Lemma chats_of_participant db uid row :
  In row (Store.chats_of db uid) ->
  In row (Store.chats db) /\ (Store.user1_id row = uid \/ Store.user2_id row = uid).
Proof.
  unfold Store.chats_of. rewrite order_by_In, filter_In.
  intros [Hin H]. split; [assumption|].
  apply orb_true_iff in H. destruct H as [H|H]; apply String.eqb_eq in H; auto.
Qed.

(** The rows joined to a conversation carry no [receiver_id]. *)
Lemma joined_receiver_undefined m :
  Js.get (Store.select ["content"; "timestamp"; "read"] (Store.message_object m))
         "receiver_id" = Js.Undefined.
Proof. reflexivity. Qed.

Lemma joined_content m :
  Js.get (Store.select ["content"; "timestamp"; "read"] (Store.message_object m))
         "content" = Js.Str (Store.msg_content m).
Proof. reflexivity. Qed.

Lemma joined_timestamp m :
  Js.get (Store.select ["content"; "timestamp"; "read"] (Store.message_object m))
         "timestamp" = Js.Num (Store.msg_timestamp m).
Proof. reflexivity. Qed.

(** Whatever the store holds, the count computed by [fetchChats] is 0. *)
Lemma processChat_unreadCount_zero db uid row :
  ChatType.unreadCount (Chat.processChat db uid (Store.join_messages db row)) = 0.
Proof.
  unfold Chat.processChat. cbn [ChatType.unreadCount Store.jc_messages Store.join_messages].
  rewrite filter_none; [reflexivity|].
  intros o Ho. apply in_map_iff in Ho. destruct Ho as [m [<- _]].
  rewrite joined_receiver_undefined. cbn. apply andb_false_r.
Qed.

Lemma fetchChats_unreadCount_zero uid nav db st e :
  In e (Chat.chats (Chat.fetchChats (Some uid) nav db st)) ->
  ChatType.unreadCount e = 0.
Proof.
  rewrite fetchChats_chats, in_map_iff. intros [row [<- _]].
  apply processChat_unreadCount_zero.
Qed.

(** C1 (the code departs from the claim). On a store with one conversation
    between V and P holding one unread message addressed to V, the entry that
    [fetchChats] builds for V reports [unreadCount] 0, while the number of
    messages of that conversation with read = false and recipient V is 1: the
    joined rows are selected without their [receiver_id]. *)
Theorem fetchChats_unreadCount_diverges :
  map (fun e => (ChatType.id e, ChatType.unreadCount e))
      (Chat.chats (Chat.fetchChats (Some "V") None Examples.dbUnread Chat.init))
  = [ ("c1", 0) ]
  /\ Spec.unreadCount Examples.dbUnread "c1" "V" = 1.
Proof. split; reflexivity. Qed.

Lemma displayName_miss : Chat.displayName None = "Unknown User".
Proof. reflexivity. Qed.

Lemma displayName_hit p s :
  Store.username p = Some s -> s <> "" -> Chat.displayName (Some p) = s.
Proof.
  intros Hu Hs. unfold Chat.displayName, Js.nonempty. rewrite Hu.
  apply String.eqb_neq in Hs. now rewrite Hs.
Qed.

Lemma processChat_participant db uid row :
  ChatType.participantId (Chat.processChat db uid (Store.join_messages db row))
  = if String.eqb (Store.user1_id row) uid then Store.user2_id row else Store.user1_id row.
Proof. reflexivity. Qed.

(** C6. [fetchChats] builds one entry per conversation of the viewer, in the
    order of the rows; in each entry the participant shown is the one of the
    two stored participants that is not the viewer, its name is the user
    name of that participant's profile, and when the profile lookup yields
    nothing the name is "Unknown User" while the list is still produced. *)
Theorem fetchChats_other_participant (uid : string) nav db st :
  Forall2
    (fun row e =>
       ChatType.id e = Store.chat_id row /\
       (Store.user1_id row = uid \/ Store.user2_id row = uid) /\
       (Store.user1_id row <> Store.user2_id row ->
        ChatType.participantId e <> uid /\
        (ChatType.participantId e = Store.user1_id row \/
         ChatType.participantId e = Store.user2_id row)) /\
       (Store.profile_by_id db (ChatType.participantId e) = None ->
        ChatType.participantName e = "Unknown User") /\
       (forall p s,
           Store.profile_by_id db (ChatType.participantId e) = Some p ->
           Store.username p = Some s -> s <> "" ->
           ChatType.participantName e = s))
    (Store.chats_of db uid)
    (Chat.chats (Chat.fetchChats (Some uid) nav db st)).
Proof.
  rewrite fetchChats_chats.
  assert (H : forall row, In row (Store.chats_of db uid) ->
                          Store.user1_id row = uid \/ Store.user2_id row = uid)
    by (intros row Hr; now apply chats_of_participant in Hr).
  induction (Store.chats_of db uid) as [|row rows IH]; simpl; constructor.
  - specialize (H row (or_introl eq_refl)).
    split; [reflexivity|]. split; [assumption|]. split; [|split].
    + intros Hne. rewrite processChat_participant.
      destruct (String.eqb (Store.user1_id row) uid) eqn:E.
      * apply String.eqb_eq in E. split; [congruence | now right].
      * apply String.eqb_neq in E. split; [assumption | now left].
    + intros Hnone. change (ChatType.participantName _)
        with (Chat.displayName (Store.profile_by_id db
                (ChatType.participantId (Chat.processChat db uid (Store.join_messages db row))))).
      now rewrite Hnone.
    + intros p s Hp Hu Hs. change (ChatType.participantName _)
        with (Chat.displayName (Store.profile_by_id db
                (ChatType.participantId (Chat.processChat db uid (Store.join_messages db row))))).
      rewrite Hp. now apply displayName_hit.
  - apply IH. intros r Hr. apply H. now right.
Qed.

(** ** Preview and order of the conversation list *)

Lemma StronglySorted_weaken {A} (R R' : A -> A -> Prop) l :
  (forall a b, R a b -> R' a b) -> StronglySorted R l -> StronglySorted R' l.
Proof.
  intros H. induction 1 as [|a l Hs IH Ha]; constructor; [assumption|].
  eapply Forall_impl; [|exact Ha]. intros b. apply H.
Qed.

Lemma processChat_preview db uid row m rest :
  Store.messages_in db (Store.chat_id row) = m :: rest ->
  let e := Chat.processChat db uid (Store.join_messages db row) in
  ChatType.lastMessage e = Some (Store.msg_content m) /\
  ChatType.lastMessageTime e = Some (Store.msg_timestamp m).
Proof.
  intros H. unfold Chat.processChat.
  cbn [ChatType.lastMessage ChatType.lastMessageTime Store.jc_messages Store.join_messages].
  rewrite H. split; reflexivity.
Qed.

Lemma processChat_no_preview db uid row :
  Store.messages_in db (Store.chat_id row) = [] ->
  let e := Chat.processChat db uid (Store.join_messages db row) in
  ChatType.lastMessage e = None /\ ChatType.lastMessageTime e = None.
Proof.
  intros H. unfold Chat.processChat.
  cbn [ChatType.lastMessage ChatType.lastMessageTime Store.jc_messages Store.join_messages].
  rewrite H. split; reflexivity.
Qed.

(** C9 as stated fails. For V on [Examples.dbActivity] the list comes out as
    cY, cX although the latest activity is in cX, and the preview of cX is
    its message of time 150 although cX has a message of time 900. *)
Lemma fetchChats_preview_order_counterexample :
  let l := Chat.chats (Chat.fetchChats (Some "V") None Examples.dbActivity Chat.init) in
  map ChatType.id l = [ "cY"; "cX" ] /\
  ~ Spec.recentActivityFirst Examples.dbActivity l /\
  ~ Forall (Spec.previewIsLatest Examples.dbActivity) l.
Proof.
  split; [reflexivity|]. split.
  - intros H. vm_compute in H. inversion H as [|? ? _ Hall]; subst.
    inversion Hall as [|? ? Hle _]; subst. vm_compute in Hle. apply Hle. reflexivity.
  - intros H. vm_compute in H. inversion H as [|? ? _ Hrest]; subst.
    inversion Hrest as [|? ? Hx _]; subst. vm_compute in Hx.
    destruct Hx as [Hx _]. discriminate Hx.
Qed.

(** C9, amended. The entries of the list follow the viewer's conversations
    ordered by creation time, most recently created first; an entry's preview
    (content and timestamp together) is taken from a message of its
    conversation whenever the conversation has one, and is absent otherwise. *)
Theorem fetchChats_order_and_preview (uid : string) nav db st :
  let l := Chat.chats (Chat.fetchChats (Some uid) nav db st) in
  map ChatType.id l = map Store.chat_id (Store.chats_of db uid) /\
  StronglySorted (fun a b => (Store.created_at b <= Store.created_at a)%Z)
                 (Store.chats_of db uid) /\
  Forall
    (fun e =>
       (Store.messages_in db (ChatType.id e) <> [] ->
        exists m, In m (Store.messages db) /\ Store.msg_chat_id m = ChatType.id e /\
                  ChatType.lastMessage e = Some (Store.msg_content m) /\
                  ChatType.lastMessageTime e = Some (Store.msg_timestamp m)) /\
       (Store.messages_in db (ChatType.id e) = [] ->
        ChatType.lastMessage e = None /\ ChatType.lastMessageTime e = None))
    l.
Proof.
  cbv zeta. rewrite fetchChats_chats. split; [|split].
  - rewrite map_map. reflexivity.
  - eapply StronglySorted_weaken; [|apply (order_by_sorted Store.created_desc)].
    + intros a b H. now apply Z.leb_le in H.
    + apply created_desc_total.
    + apply created_desc_trans.
  - apply Forall_forall. intros e He. apply in_map_iff in He.
    destruct He as [row [<- _]].
    change (ChatType.id (Chat.processChat db uid (Store.join_messages db row)))
      with (Store.chat_id row).
    split.
    + intros Hne. destruct (Store.messages_in db (Store.chat_id row)) as [|m rest] eqn:E;
        [congruence|].
      exists m. assert (Hin : In m (Store.messages_in db (Store.chat_id row)))
        by (rewrite E; now left).
      apply filter_In in Hin. destruct Hin as [Hin Hc]. apply String.eqb_eq in Hc.
      split; [assumption|]. split; [assumption|].
      now apply (processChat_preview db uid row m rest).
    + intros E. now apply processChat_no_preview.
Qed.

(** ** The composer *)

Lemma trimStart_whitespaceOnly s :
  Js.trimStart s = "" <-> Js.whitespaceOnly s = true.
Proof.
  induction s as [|c r IH]; simpl; [tauto|].
  destruct (Js.isWhiteSpace c); simpl; [exact IH|].
  split; discriminate.
Qed.

Lemma trimStart_head s c r :
  Js.trimStart s = String c r -> Js.isWhiteSpace c = false.
Proof.
  induction s as [|a s IH]; simpl; [discriminate|].
  destruct (Js.isWhiteSpace a) eqn:E; [exact IH|].
  intros H. injection H as <- _. exact E.
Qed.

Lemma trimEnd_head c r :
  Js.isWhiteSpace c = false -> Js.trimEnd (String c r) <> "".
Proof.
  intros H. simpl. destruct (Js.trimEnd r); [rewrite H|]; discriminate.
Qed.

(** [s.trim()] is empty exactly for the empty and white-space-only strings. *)
Lemma trim_empty_iff s : Js.trim s = "" <-> Js.whitespaceOnly s = true.
Proof.
  unfold Js.trim. rewrite <- trimStart_whitespaceOnly.
  destruct (Js.trimStart s) as [|c r] eqn:E; [simpl; tauto|].
  apply trimStart_head in E. split; [|discriminate].
  intros H. now apply trimEnd_head in H.
Qed.

(** C7. A submission whose text is empty or white space only, with no
    attachment staged, calls [onSendMessage] not at all, issues no store
    call and leaves the state of the component as it was; the submit button
    is disabled in that state. *)
Theorem handleSendMessage_blank_noop (user : option string) (page : Chat.State)
        (box : ChatBox.State) :
  Js.whitespaceOnly (ChatBox.newMessage box) = true ->
  ChatBox.filePreview box = None ->
  ChatBox.handleSendMessage box = (box, []) /\
  submit user page box = (box, []) /\
  ChatBox.submitDisabled box = true.
Proof.
  intros Hw Hf. apply trim_empty_iff in Hw.
  unfold submit, ChatBox.submitDisabled, ChatBox.handleSendMessage.
  rewrite Hw, Hf. repeat split.
Qed.

Lemma handleSendMessage_blank_noop_witness :
  let box := {| ChatBox.newMessage := "   "; ChatBox.filePreview := None |} in
  Js.whitespaceOnly (ChatBox.newMessage box) = true /\
  submit (Some "V") Chat.init box = (box, []).
Proof.
  split; [reflexivity|].
  apply (handleSendMessage_blank_noop (Some "V") Chat.init
           {| ChatBox.newMessage := "   "; ChatBox.filePreview := None |});
    reflexivity.
Defined.

Lemma handleSendMessage_accepted box :
  Js.nonempty (Js.trim (ChatBox.newMessage box)) || ChatBox.staged (ChatBox.filePreview box)
  = true ->
  ChatBox.handleSendMessage box
  = ({| ChatBox.newMessage := ""; ChatBox.filePreview := None |},
     [ (ChatBox.newMessage box, ChatBox.filePreview box) ]).
Proof. intros H. unfold ChatBox.handleSendMessage. now rewrite H. Qed.

(** C8. An accepted submission by user [uid] with active conversation
    [active] issues one insert, of the record with chat_id = [active]'s id,
    sender_id = [uid], receiver_id = [active]'s participant, the text as
    typed and read = false; the record is the same whatever attachment is
    staged, and for an entry built by [fetchChats] the receiver is the
    stored participant other than [uid]. *)
Theorem submit_inserts_record (uid : string) (page : Chat.State) (active : ChatType.t)
        (box : ChatBox.State) :
  Chat.activeChat page = Some active ->
  Js.nonempty (Js.trim (ChatBox.newMessage box)) || ChatBox.staged (ChatBox.filePreview box)
  = true ->
  let record :=
    {| Store.new_chat_id := ChatType.id active;
       Store.new_sender_id := uid;
       Store.new_receiver_id := ChatType.participantId active;
       Store.new_content := ChatBox.newMessage box;
       Store.new_read := false |} in
  submit (Some uid) page box
  = ({| ChatBox.newMessage := ""; ChatBox.filePreview := None |}, [ Store.Insert record ]) /\
  (forall attachment,
      Chat.handleSendMessage (Some uid) (ChatBox.newMessage box) attachment page
      = [ Store.Insert record ]) /\
  (forall db row,
      active = Chat.processChat db uid (Store.join_messages db row) ->
      Store.new_receiver_id record
      = if String.eqb (Store.user1_id row) uid then Store.user2_id row
        else Store.user1_id row).
Proof.
  intros Ha Hacc. cbv zeta. split; [|split].
  - unfold submit. rewrite (handleSendMessage_accepted box Hacc).
    cbn [flat_map fst snd app]. unfold Chat.handleSendMessage. rewrite Ha.
    reflexivity.
  - intros attachment. unfold Chat.handleSendMessage. now rewrite Ha.
  - intros db row ->. reflexivity.
Qed.

Lemma submit_inserts_record_witness :
  option_map FileAttachment.id (ChatBox.filePreview Examples.withPhoto) = Some "file-17" /\
  submit (Some "V") (Chat.setActiveChat (Some Examples.c2Entry) Chat.init) Examples.withPhoto
  = ({| ChatBox.newMessage := ""; ChatBox.filePreview := None |},
     [ Store.Insert {| Store.new_chat_id := "c2"; Store.new_sender_id := "V";
                       Store.new_receiver_id := "Q"; Store.new_content := " hi ";
                       Store.new_read := false |} ]).
Proof.
  split; [reflexivity|].
  apply (submit_inserts_record "V"
           (Chat.setActiveChat (Some Examples.c2Entry) Chat.init) Examples.c2Entry
           Examples.withPhoto);
    reflexivity.
Defined.

(** ** Read-state updates on the store *)

Lemma update_read_marks ids db m :
  In m (Store.messages (Store.update_read ids db)) ->
  In (Store.msg_id m) ids -> Store.msg_read m = true.
Proof.
  unfold Store.update_read. cbn [Store.messages]. rewrite in_map_iff.
  intros [m0 [Hm _]] Hin. unfold Store.mark_read_in in Hm.
  destruct (existsb (String.eqb (Store.msg_id m0)) ids) eqn:E.
  - now subst m.
  - subst m. apply existsb_eqb_In in Hin. congruence.
Qed.

Lemma mark_read_in_id ids m : Store.msg_id (Store.mark_read_in ids m) = Store.msg_id m.
Proof. unfold Store.mark_read_in. now destruct (existsb _ ids). Qed.

Lemma mark_read_in_chat ids m : Store.msg_chat_id (Store.mark_read_in ids m) = Store.msg_chat_id m.
Proof. unfold Store.mark_read_in. now destruct (existsb _ ids). Qed.


Lemma filter_map_commute {A} (f : A -> A) (p : A -> bool) l :
  (forall a, p (f a) = p a) -> filter p (map f l) = map f (filter p l).
Proof.
  intros H. induction l as [|a l IH]; simpl; [reflexivity|].
  rewrite H. destruct (p a); simpl; now rewrite IH.
Qed.

Lemma messages_in_update_read ids db c :
  Store.messages_in (Store.update_read ids db) c = map (Store.mark_read_in ids) (Store.messages_in db c).
Proof.
  unfold Store.messages_in, Store.update_read. cbn [Store.messages].
  apply (filter_map_commute (Store.mark_read_in ids)). intros a. now rewrite mark_read_in_chat.
Qed.



Lemma messages_in_ids_update_read ids db c :
  map Store.msg_id (Store.messages_in (Store.update_read ids db) c)
  = map Store.msg_id (Store.messages_in db c).
Proof.
  rewrite messages_in_update_read, map_map. apply map_ext. apply mark_read_in_id.
Qed.

(** ** The insert handler *)

(** C10. On an insert notification whose row names the current user as
    receiver with read = false the handler issues the update of that row's
    read flag, whatever conversation is active and whatever the page holds;
    in the store the row is read afterwards. *)
Theorem onMessageChange_marks_read (uid : string) nav (payload : Chat.Payload) db st :
  Chat.eventType payload = Chat.INSERT ->
  Store.receiver_id (Chat.new payload) = uid ->
  Store.msg_read (Chat.new payload) = false ->
  let result := Chat.onMessageChange (Some uid) nav payload db st in
  snd result = [ Store.UpdateReadEq (Store.msg_id (Chat.new payload)) ] /\
  snd (fst result) = Store.update_read [ Store.msg_id (Chat.new payload) ] db /\
  (forall m, In m (Store.messages (snd (fst result))) ->
             Store.msg_id m = Store.msg_id (Chat.new payload) ->
             Store.msg_read m = true).
Proof.
  intros He Hr Hread. cbv zeta. unfold Chat.onMessageChange.
  rewrite He, Hr, Hread, String.eqb_refl. cbn [andb negb fst snd].
  split; [reflexivity|]. split; [reflexivity|].
  intros m Hin Hid. eapply update_read_marks; [exact Hin|]. rewrite Hid. now left.
Qed.

Lemma onMessageChange_marks_read_witness :
  let st := Chat.setActiveChat (Some Examples.c2Entry) Chat.init in
  let payload := {| Chat.eventType := Chat.INSERT; Chat.new := Examples.arriving |} in
  Store.msg_chat_id Examples.arriving <> ChatType.id Examples.c2Entry /\
  snd (Chat.onMessageChange (Some "V") None payload Examples.dbTwoAfterInsert st)
  = [ Store.UpdateReadEq "p1" ].
Proof.
  split; [discriminate|].
  apply (onMessageChange_marks_read "V" None
           {| Chat.eventType := Chat.INSERT; Chat.new := Examples.arriving |}
           Examples.dbTwoAfterInsert
           (Chat.setActiveChat (Some Examples.c2Entry) Chat.init));
    reflexivity.
Defined.

Lemma fetchChats_messages user nav db st :
  Chat.messages (Chat.fetchChats user nav db st) = Chat.messages st.
Proof.
  unfold Chat.fetchChats, Chat.fetchMessages. destruct user as [uid|]; [|reflexivity].
  destruct (Chat.navTarget nav).
  - destruct (find _ _); reflexivity.
  - destruct (map _ _); reflexivity.
Qed.

(** The handler appends every inserted row it is handed to the feed; the
    active conversation plays no part. *)
Lemma onMessageChange_insert_appends user nav payload db st :
  Chat.eventType payload = Chat.INSERT ->
  Chat.messages (fst (fst (Chat.onMessageChange user nav payload db st)))
  = Chat.messages st ++ [ Chat.formatMessage db (Chat.new payload) ].
Proof.
  intros He. unfold Chat.onMessageChange. rewrite He.
  destruct (_ && _); cbn [fst]; now rewrite fetchChats_messages.
Qed.

(** A channel opened while no conversation is active is not filtered. *)
Lemma mount_filter_delivers_all m :
  Chat.delivered (Chat.messageFilter Chat.init) m = true.
Proof. reflexivity. Qed.

(** C3 (the code departs from the claim). V has c2 open, selected by hand;
    the channel was opened by the mounting render, whose [activeChat] is
    null, so its filter is undefined and the insert of P's message into c1
    is delivered.  The handler appends that message to the feed shown for
    c2, re-selects the first conversation and starts its fetch; the entry
    of c1 in the refreshed list is the one it was before. *)
Theorem onMessageChange_foreign_insert :
  match Examples.pageOnC2 with
  | None => False
  | Some (st, db, _) =>
      let payload := {| Chat.eventType := Chat.INSERT; Chat.new := Examples.arriving |} in
      let st' := fst (fst (Chat.onMessageChange (Some "V") None payload
                                                Examples.dbTwoAfterInsert st)) in
      db = Examples.dbTwo /\
      option_map ChatType.id (Chat.activeChat st) = Some "c2" /\
      map MessageType.id (Chat.messages st) = [ "q0" ] /\
      Chat.delivered (Chat.messageFilter Chat.init) Examples.arriving = true /\
      Store.msg_chat_id Examples.arriving = "c1" /\
      map MessageType.id (Chat.messages st') = [ "q0"; "p1" ] /\
      option_map ChatType.id (Chat.activeChat st') = Some "c1" /\
      Chat.inflight st' = [ "c1" ] /\
      find (fun e => String.eqb (ChatType.id e) "c1") (Chat.chats st')
      = find (fun e => String.eqb (ChatType.id e) "c1") (Chat.chats st)
  end.
Proof. vm_compute. repeat split. Qed.

(** ** Selections racing with fetch resolutions *)


Lemma formatMessage_id db m : MessageType.id (Chat.formatMessage db m) = Store.msg_id m.
Proof. reflexivity. Qed.








(** ** The read-state marker *)


Lemma nonempty_filter_length {A} (p : A -> bool) l x :
  In x l -> p x = true -> Nat.ltb 0 (List.length (filter p l)) = true.
Proof.
  intros Hin Hp. apply Nat.ltb_lt.
  assert (H : In x (filter p l)) by (apply filter_In; now split).
  destruct (filter p l); [contradiction | simpl; lia].
Qed.

Lemma formatMessage_unread_other db uid row :
  negb (MessageType.read (Chat.formatMessage db row))
  && negb (String.eqb (MessageType.senderId (Chat.formatMessage db row)) uid)
  = negb (Store.msg_read row) && negb (String.eqb (Store.sender_id row) uid).
Proof. cbn. now rewrite orb_false_r. Qed.

(** With an unread message of another sender loaded, the marker issues one
    update, of the unread messages of other senders. *)
Lemma markMessagesAsRead_one uid feed chatId m :
  Js.nonempty chatId = true ->
  In m feed -> MessageType.read m = false -> MessageType.senderId m <> uid ->
  ChatBox.markMessagesAsRead (Some uid) feed chatId
  = [ Store.UpdateReadIn
        (map MessageType.id
             (filter (fun m => negb (MessageType.read m)
                               && negb (String.eqb (MessageType.senderId m) uid)) feed)) ].
Proof.
  intros Hc Hin0 Hr0 Hs0. unfold ChatBox.markMessagesAsRead.
  assert (Hlen : Nat.ltb 0 (List.length feed) = true)
    by (apply Nat.ltb_lt; destruct feed; [contradiction | simpl; lia]).
  rewrite Hlen, Hc. cbn [andb].
  rewrite (nonempty_filter_length _ feed m Hin0); [reflexivity|].
  rewrite Hr0. apply String.eqb_neq in Hs0. now rewrite Hs0.
Qed.

(** C4 as stated fails. The loaded set of V's conversation with P holds one
    message, sent by V and still unread: the set contains an unread message,
    and the marker issues no update at all, not one update of the (empty)
    set of unread messages addressed to V. *)
Lemma markMessagesAsRead_counterexample :
  Spec.twoParty "V" [ Examples.outgoing ] /\
  MessageType.read Examples.outgoing = false /\
  ChatBox.markMessagesAsRead (Some "V") [ Examples.outgoing ] "c1" = [] /\
  ChatBox.markMessagesAsRead (Some "V") [ Examples.outgoing ] "c1"
  <> [ Store.UpdateReadIn (Spec.unreadAddressedTo "V" [ Examples.outgoing ]) ].
Proof.
  split; [|split; [reflexivity | split; [reflexivity | discriminate]]].
  constructor; [|constructor]. split; intros H; [now contradiction H | discriminate H].
Qed.

(** C4, amended. When the marker fires for viewer [uid], in a conversation
    with a non-empty id, on a loaded set of messages between [uid] and the
    other participant that holds an unread message addressed to [uid], it
    issues exactly one update, whose ids are exactly the loaded messages
    addressed to [uid] with read = false.  When the loaded set is the
    conversation as the store holds it, the unread count of the conversation
    is 0 after that update. *)
Theorem markMessagesAsRead_batch (uid : string) feed chatId :
  Js.nonempty chatId = true ->
  Spec.twoParty uid feed ->
  (exists m, In m feed /\ MessageType.read m = false /\ MessageType.receiverId m = uid) ->
  ChatBox.markMessagesAsRead (Some uid) feed chatId
  = [ Store.UpdateReadIn (Spec.unreadAddressedTo uid feed) ] /\
  (forall db,
      feed = map (Chat.formatMessage db) (Store.messages_of db chatId) ->
      Spec.unreadCount
        (Store.apply_update (Store.UpdateReadIn (Spec.unreadAddressedTo uid feed)) db)
        chatId uid = 0).
Proof.
  intros Hc Htwo [m0 [Hin0 [Hr0 Hv0]]].
  unfold Spec.twoParty in Htwo. rewrite Forall_forall in Htwo.
  assert (Hids : map MessageType.id
                     (filter (fun m => negb (MessageType.read m)
                                       && negb (String.eqb (MessageType.senderId m) uid)) feed)
                 = Spec.unreadAddressedTo uid feed).
  { unfold Spec.unreadAddressedTo. f_equal. apply filter_ext_in.
    intros m Hm. f_equal. specialize (Htwo m Hm).
    destruct (String.eqb (MessageType.senderId m) uid) eqn:Es;
      destruct (String.eqb (MessageType.receiverId m) uid) eqn:Er; try reflexivity.
    - apply String.eqb_eq in Es, Er. apply Htwo in Er. contradiction.
    - apply String.eqb_neq in Es, Er. apply Htwo in Es. contradiction. }
  split.
  - rewrite <- Hids. apply (markMessagesAsRead_one uid feed chatId m0); try assumption.
    now apply (Htwo m0 Hin0).
  - intros db Hfeed. rewrite <- Hids. cbn [Store.apply_update]. unfold Spec.unreadCount.
    rewrite messages_in_update_read, filter_none; [reflexivity|].
    intros x Hx. apply in_map_iff in Hx. destruct Hx as [row [<- Hrow]].
    unfold Store.mark_read_in.
    destruct (existsb _ _) eqn:E; [reflexivity|].
    destruct (Store.msg_read row) eqn:Hread; [reflexivity|].
    destruct (String.eqb (Store.receiver_id row) uid) eqn:Hrecv; [|reflexivity].
    exfalso. apply String.eqb_eq in Hrecv.
    assert (Hf : In (Chat.formatMessage db row) feed).
    { rewrite Hfeed. apply in_map. unfold Store.messages_of. now apply order_by_In. }
    assert (Hsend : MessageType.senderId (Chat.formatMessage db row) <> uid)
      by (apply (Htwo _ Hf); exact Hrecv).
    cbn in Hsend.
    assert (Hid : In (Store.msg_id row)
                     (map MessageType.id
                          (filter (fun m => negb (MessageType.read m)
                                            && negb (String.eqb (MessageType.senderId m) uid))
                                  feed))).
    { change (Store.msg_id row) with (MessageType.id (Chat.formatMessage db row)).
      apply in_map. apply filter_In. split; [exact Hf|].
      rewrite formatMessage_unread_other, Hread.
      apply String.eqb_neq in Hsend. now rewrite Hsend. }
    apply existsb_eqb_In in Hid. congruence.
Qed.

Lemma markMessagesAsRead_batch_witness :
  let feed := map (Chat.formatMessage Examples.dbUnread)
                  (Store.messages_of Examples.dbUnread "c1") in
  Spec.unreadCount Examples.dbUnread "c1" "V" = 1 /\
  Spec.unreadAddressedTo "V" feed = [ "m1" ] /\
  ChatBox.markMessagesAsRead (Some "V") feed "c1" = [ Store.UpdateReadIn [ "m1" ] ] /\
  Spec.unreadCount (Store.apply_update (Store.UpdateReadIn [ "m1" ]) Examples.dbUnread)
                   "c1" "V" = 0.
Proof.
  cbv zeta. split; [reflexivity|]. split; [reflexivity|].
  destruct (markMessagesAsRead_batch "V"
              (map (Chat.formatMessage Examples.dbUnread)
                   (Store.messages_of Examples.dbUnread "c1")) "c1")
    as [Hcall Hcount].
  - reflexivity.
  - constructor; [|constructor]. split; intros H; [reflexivity | discriminate].
  - eexists. split; [left; reflexivity|]. split; reflexivity.
  - split; [exact Hcall|]. apply (Hcount Examples.dbUnread). reflexivity.
Defined.

(** ** The debounce of the marker *)







(** * Further properties of the chat page *)

(** ** What [fetchChats] leaves behind *)

Lemma fetchChats_isLoading user nav db st :
  Chat.isLoading (Chat.fetchChats user nav db st) = false.
Proof. unfold Chat.fetchChats. destruct user; reflexivity. Qed.

(** [fetchChats] always ends with the loading flag down and never changes
    the feed; for a viewer who is not signed in it changes nothing else. *)
Theorem fetchChats_settles (user : option string) nav db st :
  let st' := Chat.fetchChats user nav db st in
  Chat.isLoading st' = false /\
  Chat.messages st' = Chat.messages st /\
  (user = None ->
   Chat.chats st' = Chat.chats st /\ Chat.activeChat st' = Chat.activeChat st /\
   Chat.inflight st' = Chat.inflight st).
Proof.
  cbv zeta. split; [apply fetchChats_isLoading|]. split; [apply fetchChats_messages|].
  intros ->. repeat split.
Qed.

Lemma navTarget_some target :
  target <> "" -> Chat.navTarget (Some target) = Some target.
Proof.
  intros H. unfold Chat.navTarget, Js.nonempty.
  apply String.eqb_neq in H. now rewrite H.
Qed.

(** With a navigation target, [fetchChats] activates the listed conversation
    of that id and starts its fetch; when no listed conversation has that
    id it selects nothing and starts no fetch, however many conversations
    the list holds. *)
Theorem fetchChats_nav_target (uid target : string) db st :
  target <> "" ->
  let st' := Chat.fetchChats (Some uid) (Some target) db st in
  match find (fun chat => String.eqb (ChatType.id chat) target) (Chat.chats st') with
  | Some chat =>
      ChatType.id chat = target /\
      Chat.activeChat st' = Some chat /\
      Chat.inflight st' = Chat.inflight st ++ [ target ]
  | None =>
      Chat.activeChat st' = Chat.activeChat st /\
      Chat.inflight st' = Chat.inflight st
  end.
Proof.
  intros Ht. cbv zeta. rewrite fetchChats_chats.
  unfold Chat.fetchChats. rewrite (navTarget_some target Ht), map_map.
  set (processed := map _ (Store.chats_of db uid)).
  destruct (find _ processed) as [chat|] eqn:E.
  - apply find_some in E. destruct E as [_ E]. apply String.eqb_eq in E.
    unfold Chat.fetchMessages.
    cbn [Chat.activeChat Chat.inflight Chat.setIsLoading Chat.setInflight Chat.setActiveChat
         Chat.setChats].
    now rewrite E.
  - split; reflexivity.
Qed.

Lemma fetchChats_nav_target_witness :
  let st' := Chat.fetchChats (Some "V") (Some "c2") Examples.dbTwo Chat.init in
  option_map ChatType.id (Chat.activeChat st') = Some "c2" /\
  Chat.inflight st' = [ "c2" ] /\
  Chat.activeChat (Chat.fetchChats (Some "V") (Some "zz") Examples.dbTwo Chat.init) = None.
Proof.
  cbv zeta.
  pose proof (fetchChats_nav_target "V" "c2" Examples.dbTwo Chat.init) as H1.
  pose proof (fetchChats_nav_target "V" "zz" Examples.dbTwo Chat.init) as H2.
  cbv zeta in H1, H2.
  destruct (find _ (Chat.chats (Chat.fetchChats (Some "V") (Some "c2") Examples.dbTwo Chat.init)))
    as [chat|] eqn:E1; [|discriminate E1].
  destruct (find _ (Chat.chats (Chat.fetchChats (Some "V") (Some "zz") Examples.dbTwo Chat.init)))
    as [chat'|] eqn:E2; [discriminate E2|].
  destruct H1 as [Hid [Ha Hi]]; [discriminate|].
  destruct H2 as [Ha2 _]; [discriminate|].
  rewrite Ha, Hi, Ha2. cbn [option_map]. rewrite Hid. repeat split.
Defined.

(** Without a navigation target, every run of [fetchChats] that finds a
    conversation makes the first one of the list (the most recently created)
    the active one and starts its fetch, whatever conversation was active
    before; with an empty list it selects nothing. *)
Theorem fetchChats_default_selection (uid : string) nav db st :
  Chat.navTarget nav = None ->
  let st' := Chat.fetchChats (Some uid) nav db st in
  match Store.chats_of db uid with
  | first :: _ =>
      Chat.activeChat st' = Some (Chat.processChat db uid (Store.join_messages db first)) /\
      Chat.inflight st' = Chat.inflight st ++ [ Store.chat_id first ]
  | [] =>
      Chat.chats st' = [] /\
      Chat.activeChat st' = Chat.activeChat st /\ Chat.inflight st' = Chat.inflight st
  end.
Proof.
  intros Hn. cbv zeta. unfold Chat.fetchChats. rewrite Hn, map_map.
  destruct (Store.chats_of db uid) as [|first rest]; cbn [map].
  - repeat split.
  - split; reflexivity.
Qed.

Lemma fetchChats_default_selection_witness :
  let st := Chat.setActiveChat (Some Examples.c2Entry) Chat.init in
  let st' := Chat.fetchChats (Some "V") None Examples.dbTwo st in
  option_map ChatType.id (Chat.activeChat st) = Some "c2" /\
  option_map ChatType.id (Chat.activeChat st') = Some "c1" /\
  Chat.inflight st' = [ "c1" ].
Proof.
  cbv zeta. split; [reflexivity|].
  pose proof (fetchChats_default_selection "V" None Examples.dbTwo
                (Chat.setActiveChat (Some Examples.c2Entry) Chat.init) eq_refl) as H.
  cbv zeta in H.
  destruct (Store.chats_of Examples.dbTwo "V") as [|first rest] eqn:E; [discriminate E|].
  destruct H as [Ha Hi]. rewrite Ha, Hi.
  vm_compute in E. injection E as <- _. split; reflexivity.
Defined.

(** No entry that [fetchChats] lists gets an unread badge in the
    conversation list: its [unreadCount] is 0 whatever the store holds. *)
Theorem fetchChats_no_badge (uid : string) nav db st :
  Forall (fun chat => ChatType.unreadCount chat = 0 /\ ChatList.showsBadge chat = false)
         (Chat.chats (Chat.fetchChats (Some uid) nav db st)).
Proof.
  apply Forall_forall. intros chat Hin.
  apply fetchChats_unreadCount_zero in Hin.
  unfold ChatList.showsBadge. now rewrite Hin.
Qed.

(** ** The feed a resolved fetch loads *)

Lemma insert_by_perm {A} (le : A -> A -> bool) x l :
  Permutation (Store.insert_by le x l) (x :: l).
Proof.
  induction l as [|a l IH]; simpl; [apply Permutation_refl|].
  destruct (le x a); [apply Permutation_refl|].
  eapply perm_trans; [apply perm_skip, IH | apply perm_swap].
Qed.

Lemma order_by_perm {A} (le : A -> A -> bool) l :
  Permutation (Store.order_by le l) l.
Proof.
  induction l as [|a l IH]; simpl; [apply Permutation_refl|].
  eapply perm_trans; [apply insert_by_perm | now apply perm_skip].
Qed.

Lemma StronglySorted_map {A B} (f : A -> B) (R : A -> A -> Prop) (R' : B -> B -> Prop) l :
  (forall a b, R a b -> R' (f a) (f b)) ->
  StronglySorted R l -> StronglySorted R' (map f l).
Proof.
  intros H. induction 1 as [|a l Hs IH Ha]; simpl; constructor; [assumption|].
  apply Forall_forall. intros b Hb. apply in_map_iff in Hb.
  destruct Hb as [x [<- Hx]]. apply H. rewrite Forall_forall in Ha. now apply Ha.
Qed.

Lemma timestamp_asc_total x y :
  Store.timestamp_asc x y = false -> Store.timestamp_asc y x = true.
Proof. unfold Store.timestamp_asc. intros H. apply Z.leb_gt in H. apply Z.leb_le. lia. Qed.

Lemma timestamp_asc_trans x y z :
  Store.timestamp_asc x y = true -> Store.timestamp_asc y z = true ->
  Store.timestamp_asc x z = true.
Proof.
  unfold Store.timestamp_asc. intros H1 H2.
  apply Z.leb_le in H1, H2. apply Z.leb_le. lia.
Qed.

Lemma fetchMessages_resolved_messages uid c db st :
  Chat.messages (fst (fst (Chat.fetchMessages_resolved uid c db st)))
  = map (Chat.formatMessage db) (Store.messages_of db c).
Proof. unfold Chat.fetchMessages_resolved. destruct (Nat.ltb 0 _); reflexivity. Qed.

(** When a fetch for conversation [c] resolves, the feed becomes the stored
    messages of [c], all of them and no others, in non-decreasing order of
    timestamp; the list, the active conversation and the loading flag stay
    as they were. *)
Theorem fetchMessages_resolved_feed (uid c : string) db st :
  let st' := fst (fst (Chat.fetchMessages_resolved uid c db st)) in
  StronglySorted (fun a b => (MessageType.timestamp a <= MessageType.timestamp b)%Z)
                 (Chat.messages st') /\
  Permutation (Chat.messages st') (map (Chat.formatMessage db) (Store.messages_in db c)) /\
  Chat.chats st' = Chat.chats st /\ Chat.activeChat st' = Chat.activeChat st /\
  Chat.isLoading st' = Chat.isLoading st.
Proof.
  cbv zeta. rewrite fetchMessages_resolved_messages. split; [|split].
  - apply (StronglySorted_map (Chat.formatMessage db)
             (fun a b => Store.timestamp_asc a b = true)).
    + intros a b H. cbn. now apply Z.leb_le in H.
    + apply order_by_sorted; [apply timestamp_asc_total | apply timestamp_asc_trans].
  - apply Permutation_map. apply order_by_perm.
  - unfold Chat.fetchMessages_resolved. destruct (Nat.ltb 0 _); repeat split.
Qed.

Lemma fetchMessages_resolved_store uid c db st :
  snd (fst (Chat.fetchMessages_resolved uid c db st))
  = Store.update_read
      (map Store.msg_id
           (filter (fun msg => negb (Store.msg_read msg)
                               && negb (String.eqb (Store.sender_id msg) uid))
                   (Store.messages_of db c)))
      db
  \/ (snd (fst (Chat.fetchMessages_resolved uid c db st)) = db /\
      snd (Chat.fetchMessages_resolved uid c db st) = [] /\
      filter (fun msg => negb (Store.msg_read msg)
                         && negb (String.eqb (Store.sender_id msg) uid))
             (Store.messages_of db c) = []).
Proof.
  unfold Chat.fetchMessages_resolved. rewrite length_map.
  destruct (filter _ (Store.messages_of db c)) as [|m l] eqn:E; cbn [List.length Nat.ltb Nat.leb].
  - right. repeat split.
  - left. reflexivity.
Qed.

(** After a fetch for [c] has resolved, no message of [c] that someone
    other than the viewer sent is unread in the store. *)
Theorem fetchMessages_resolved_marks_others (uid c : string) db st :
  let db' := snd (fst (Chat.fetchMessages_resolved uid c db st)) in
  Forall (fun m => Store.sender_id m <> uid -> Store.msg_read m = true)
         (Store.messages_in db' c).
Proof.
  cbv zeta. apply Forall_forall. intros m Hm Hs.
  destruct (fetchMessages_resolved_store uid c db st) as [E|[E [_ Hnone]]];
    rewrite E in Hm.
  - rewrite messages_in_update_read in Hm. apply in_map_iff in Hm.
    destruct Hm as [m0 [<- Hm0]]. unfold Store.mark_read_in in *.
    destruct (existsb _ _) eqn:Ex; [reflexivity|].
    destruct (Store.msg_read m0) eqn:Hr; [reflexivity|]. exfalso.
    assert (Hin : In (Store.msg_id m0)
                     (map Store.msg_id
                          (filter (fun msg => negb (Store.msg_read msg)
                                              && negb (String.eqb (Store.sender_id msg) uid))
                                  (Store.messages_of db c)))).
    { apply in_map. apply filter_In. split.
      - unfold Store.messages_of. now apply order_by_In.
      - rewrite Hr. apply String.eqb_neq in Hs. now rewrite Hs. }
    apply existsb_eqb_In in Hin. congruence.
  - destruct (Store.msg_read m) eqn:Hr; [reflexivity|]. exfalso.
    assert (Hin : In m (filter (fun msg => negb (Store.msg_read msg)
                                           && negb (String.eqb (Store.sender_id msg) uid))
                               (Store.messages_of db c))).
    { apply filter_In. split.
      - unfold Store.messages_of. now apply order_by_In.
      - rewrite Hr. apply String.eqb_neq in Hs. now rewrite Hs. }
    rewrite Hnone in Hin. contradiction.
Qed.


Lemma formatted_unread_ids db uid l :
  map MessageType.id
      (filter (fun msg => negb (MessageType.read msg)
                          && negb (String.eqb (MessageType.senderId msg) uid))
              (map (Chat.formatMessage db) l))
  = map Store.msg_id
        (filter (fun msg => negb (Store.msg_read msg)
                            && negb (String.eqb (Store.sender_id msg) uid)) l).
Proof.
  induction l as [|m l IH]; [reflexivity|].
  cbn [map filter]. rewrite formatMessage_unread_other.
  destruct (negb (Store.msg_read m) && negb (String.eqb (Store.sender_id m) uid));
    cbn [map]; now rewrite IH.
Qed.

(** The debounced marker of the conversation pane, run on the feed a fetch
    has just loaded, issues the very update that fetch already issued: a
    conversation opened with unread messages is marked twice. *)
Theorem marker_repeats_fetch_update (uid c : string) db st :
  Js.nonempty c = true ->
  let r := Chat.fetchMessages_resolved uid c db st in
  ChatBox.markMessagesAsRead (Some uid) (Chat.messages (fst (fst r))) c = snd r.
Proof.
  intros Hc. cbv zeta. rewrite fetchMessages_resolved_messages.
  unfold ChatBox.markMessagesAsRead, Chat.fetchMessages_resolved.
  rewrite Hc, andb_true_r, !length_map.
  pose proof (formatted_unread_ids db uid (Store.messages_of db c)) as Hids.
  assert (Hlen : List.length
                   (filter (fun msg => negb (MessageType.read msg)
                                       && negb (String.eqb (MessageType.senderId msg) uid))
                           (map (Chat.formatMessage db) (Store.messages_of db c)))
                 = List.length
                     (filter (fun msg => negb (Store.msg_read msg)
                                         && negb (String.eqb (Store.sender_id msg) uid))
                             (Store.messages_of db c))).
  { apply (f_equal (@List.length _)) in Hids. now rewrite !length_map in Hids. }
  rewrite Hlen, Hids.
  set (unread := filter _ (Store.messages_of db c)).
  destruct (Nat.ltb 0 (List.length unread)) eqn:Eu; cbn [snd].
  - assert (Hm : Nat.ltb 0 (List.length (Store.messages_of db c)) = true).
    { apply Nat.ltb_lt. apply Nat.ltb_lt in Eu.
      pose proof (filter_length_le
                    (fun msg => negb (Store.msg_read msg)
                                && negb (String.eqb (Store.sender_id msg) uid))
                    (Store.messages_of db c)) as Hle.
      fold unread in Hle. lia. }
    now rewrite Hm.
  - now destruct (Nat.ltb 0 (List.length (Store.messages_of db c))).
Qed.

Lemma marker_repeats_fetch_update_witness :
  let r := Chat.fetchMessages_resolved "V" "c1" Examples.dbUnread Chat.init in
  snd r = [ Store.UpdateReadIn [ "m1" ] ] /\
  ChatBox.markMessagesAsRead (Some "V") (Chat.messages (fst (fst r))) "c1"
  = [ Store.UpdateReadIn [ "m1" ] ].
Proof.
  cbv zeta. split; [reflexivity|].
  rewrite (marker_repeats_fetch_update "V" "c1" Examples.dbUnread Chat.init eq_refl).
  reflexivity.
Defined.

(** ** What the page does to the store *)

Lemma read_raised_refl m : Store.read_raised m m.
Proof. unfold Store.read_raised. tauto. Qed.

Lemma read_raised_trans a b c :
  Store.read_raised a b -> Store.read_raised b c -> Store.read_raised a c.
Proof.
  unfold Store.read_raised. intros [H1 [H2 [H3 [H4 [H5 [H6 H7]]]]]] [K1 [K2 [K3 [K4 [K5 [K6 K7]]]]]].
  repeat split; try congruence. auto.
Qed.

Lemma mark_read_in_raised ids m : Store.read_raised m (Store.mark_read_in ids m).
Proof.
  unfold Store.mark_read_in. destruct (existsb _ ids); [|apply read_raised_refl].
  unfold Store.read_raised. cbn. tauto.
Qed.

Lemma Forall2_refl_on {A} (R : A -> A -> Prop) l :
  (forall a, R a a) -> Forall2 R l l.
Proof. intros H. induction l; constructor; auto. Qed.

Lemma Forall2_map_r {A} (R : A -> A -> Prop) (f : A -> A) l :
  (forall a, R a (f a)) -> Forall2 R l (map f l).
Proof. intros H. induction l; simpl; constructor; auto. Qed.

Lemma Forall2_compose {A} (R : A -> A -> Prop) l1 l2 l3 :
  (forall a b c, R a b -> R b c -> R a c) ->
  Forall2 R l1 l2 -> Forall2 R l2 l3 -> Forall2 R l1 l3.
Proof.
  intros Ht H12. revert l3. induction H12 as [|a b l1 l2 Hab _ IH]; intros l3 H23.
  - inversion H23. constructor.
  - inversion H23 as [|b' c l2' l3' Hbc Hrest]; subst. constructor; eauto.
Qed.

Lemma fetchMessages_resolved_raises uid c db st :
  let db' := snd (fst (Chat.fetchMessages_resolved uid c db st)) in
  Store.profiles db' = Store.profiles db /\ Store.chats db' = Store.chats db /\
  Forall2 Store.read_raised (Store.messages db) (Store.messages db').
Proof.
  cbv zeta. destruct (fetchMessages_resolved_store uid c db st) as [E|[E _]]; rewrite E.
  - split; [reflexivity|]. split; [reflexivity|].
    apply Forall2_map_r. apply mark_read_in_raised.
  - split; [reflexivity|]. split; [reflexivity|].
    apply Forall2_refl_on. apply read_raised_refl.
Qed.

(** Whatever conversations are selected and in whatever order their fetches
    resolve, the page neither adds, removes, reorders nor edits a stored
    message, and never turns a read flag back to false; profiles and chats
    are left alone. *)
Theorem run_only_raises_read (user : option string) evs st db log st' db' log' :
  Chat.run user evs (st, db, log) = Some (st', db', log') ->
  Store.profiles db' = Store.profiles db /\ Store.chats db' = Store.chats db /\
  Forall2 Store.read_raised (Store.messages db) (Store.messages db').
Proof.
  revert st db log. induction evs as [|ev rest IH]; intros st db log Hrun.
  - simpl in Hrun. injection Hrun as _ <- _.
    split; [reflexivity|]. split; [reflexivity|].
    apply Forall2_refl_on. apply read_raised_refl.
  - cbn [Chat.run] in Hrun. destruct ev as [chat|k].
    + cbn [Chat.step] in Hrun. now apply IH in Hrun.
    + cbn [Chat.step] in Hrun. destruct user as [uid|]; [|discriminate].
      destruct (nth_error (Chat.inflight st) k) as [c|]; [|discriminate].
      pose proof (fetchMessages_resolved_raises uid c db
                    (Chat.setInflight (Chat.remove_nth k (Chat.inflight st)) st)) as H1.
      cbv zeta in H1.
      destruct (Chat.fetchMessages_resolved uid c db _) as [[st1 db1] calls].
      cbn [fst snd] in H1. destruct H1 as [Hp [Hc Hm]].
      apply IH in Hrun. destruct Hrun as [Hp' [Hc' Hm']].
      split; [congruence|]. split; [congruence|].
      eapply Forall2_compose; [apply read_raised_trans | exact Hm | exact Hm'].
Qed.

Lemma run_only_raises_read_witness :
  map Store.msg_read (Store.messages Examples.dbUnread) = [ false ] /\
  map Store.msg_read (Store.messages (snd (fst Scenarios.openUnread))) = [ true ] /\
  Forall2 Store.read_raised (Store.messages Examples.dbUnread)
          (Store.messages (snd (fst Scenarios.openUnread))).
Proof.
  split; [reflexivity|]. split; [reflexivity|].
  apply (run_only_raises_read (Some "V")
           [ Chat.Select (Examples.entry "c1" "P" "paul"); Chat.Resolve 0 ]
           Chat.init Examples.dbUnread []
           (fst (fst Scenarios.openUnread)) (snd (fst Scenarios.openUnread))
           (snd Scenarios.openUnread)).
  reflexivity.
Defined.

Lemma NoDup_map_inj_on {A B} (f : A -> B) l a b :
  NoDup (map f l) -> In a l -> In b l -> f a = f b -> a = b.
Proof.
  induction l as [|x l IH]; intros Hnd Ha Hb Hf; [contradiction|].
  cbn [map] in Hnd. inversion Hnd as [|? ? Hx Hrest]; subst.
  destruct Ha as [->|Ha], Hb as [->|Hb]; auto.
  - exfalso. apply Hx. rewrite Hf. now apply in_map.
  - exfalso. apply Hx. rewrite <- Hf. now apply in_map.
Qed.

(** Message ids being unique in the store, a fetch for [c] that resolves
    leaves the messages of every other conversation exactly as they were. *)
Theorem fetchMessages_resolved_other_chats (uid c c' : string) db st :
  NoDup (map Store.msg_id (Store.messages db)) ->
  c' <> c ->
  Store.messages_in (snd (fst (Chat.fetchMessages_resolved uid c db st))) c'
  = Store.messages_in db c'.
Proof.
  intros Hnd Hc. destruct (fetchMessages_resolved_store uid c db st) as [E|[E _]];
    rewrite E; [|reflexivity].
  rewrite messages_in_update_read. rewrite <- (map_id (Store.messages_in db c')) at 2.
  apply map_ext_in. intros m Hm. unfold Store.mark_read_in.
  destruct (existsb _ _) eqn:Ex; [|reflexivity]. exfalso.
  apply existsb_eqb_In in Ex. apply in_map_iff in Ex. destruct Ex as [m0 [Hid Hm0]].
  apply filter_In in Hm0. destruct Hm0 as [Hm0 _].
  unfold Store.messages_of in Hm0. apply order_by_In in Hm0.
  apply filter_In in Hm0. destruct Hm0 as [Hin0 Hc0].
  apply filter_In in Hm. destruct Hm as [Hin Hc'].
  apply String.eqb_eq in Hc0, Hc'.
  assert (m0 = m) by (eapply (NoDup_map_inj_on Store.msg_id); eauto).
  subst m0. congruence.
Qed.

Lemma fetchMessages_resolved_other_chats_witness :
  let db' := snd (fst (Chat.fetchMessages_resolved "V" "c1" Scenarios.dbUniqueIds Chat.init)) in
  Store.messages_in db' "c2" = Store.messages_in Scenarios.dbUniqueIds "c2" /\
  Store.messages_in db' "c1" <> Store.messages_in Scenarios.dbUniqueIds "c1".
Proof.
  cbv zeta. split.
  - apply (fetchMessages_resolved_other_chats "V" "c1" "c2" Scenarios.dbUniqueIds Chat.init).
    + vm_compute. repeat constructor; simpl; intuition discriminate.
    + discriminate.
  - vm_compute. discriminate.
Defined.

(** A message inserted into conversation [c] is in the feed of the next
    fetch of [c] that resolves, with the sender, receiver and content it
    was inserted with. *)
Theorem inserted_message_in_next_feed (uid id : string) (ts : Z) (r : Store.NewMessage) db st :
  let db1 := Store.insert id ts r db in
  let feed := Chat.messages (fst (fst (Chat.fetchMessages_resolved uid (Store.new_chat_id r) db1 st))) in
  exists m, In m feed /\
            MessageType.id m = id /\ MessageType.senderId m = Store.new_sender_id r /\
            MessageType.receiverId m = Store.new_receiver_id r /\
            MessageType.content m = Store.new_content r /\
            MessageType.timestamp m = ts.
Proof.
  cbv zeta. rewrite fetchMessages_resolved_messages.
  exists (Chat.formatMessage (Store.insert id ts r db) (Store.inserted_row id ts r)).
  split; [|repeat split].
  apply in_map. unfold Store.messages_of. apply order_by_In.
  unfold Store.messages_in. apply filter_In. split.
  - unfold Store.insert. cbn [Store.messages]. apply in_or_app. right. now left.
  - apply String.eqb_refl.
Qed.

(** ** Sending *)

Lemma handleSendMessage_rejected box :
  Js.nonempty (Js.trim (ChatBox.newMessage box)) || ChatBox.staged (ChatBox.filePreview box)
  = false ->
  ChatBox.handleSendMessage box = (box, []).
Proof. intros H. unfold ChatBox.handleSendMessage. now rewrite H. Qed.

(** The submit button is disabled in exactly the states in which a
    submission does nothing. *)
Theorem submitDisabled_iff_noop (box : ChatBox.State) :
  ChatBox.submitDisabled box = true <-> ChatBox.handleSendMessage box = (box, []).
Proof.
  unfold ChatBox.submitDisabled. rewrite <- negb_orb.
  destruct (Js.nonempty (Js.trim (ChatBox.newMessage box))
            || ChatBox.staged (ChatBox.filePreview box)) eqn:E.
  - rewrite (handleSendMessage_accepted box E). cbn. split; discriminate.
  - rewrite (handleSendMessage_rejected box E). cbn. tauto.
Qed.

(** Submitting twice in a row never sends twice: after any submission the
    component is in a state in which a further submission does nothing. *)
Theorem handleSendMessage_twice (box : ChatBox.State) :
  snd (ChatBox.handleSendMessage (fst (ChatBox.handleSendMessage box))) = [] /\
  ChatBox.submitDisabled (fst (ChatBox.handleSendMessage box)) = true.
Proof.
  destruct (Js.nonempty (Js.trim (ChatBox.newMessage box))
            || ChatBox.staged (ChatBox.filePreview box)) eqn:E.
  - rewrite (handleSendMessage_accepted box E). split; reflexivity.
  - rewrite (handleSendMessage_rejected box E). cbn [fst].
    rewrite (handleSendMessage_rejected box E). split; [reflexivity|].
    unfold ChatBox.submitDisabled. rewrite <- negb_orb. now rewrite E.
Qed.

(** An accepted submission clears the text and the staged file whether or
    not anything is inserted; it inserts nothing exactly when no user is
    signed in or no conversation is active, and never more than one record. *)
Theorem submit_outcomes (user : option string) (page : Chat.State) (box : ChatBox.State) :
  Js.nonempty (Js.trim (ChatBox.newMessage box)) || ChatBox.staged (ChatBox.filePreview box)
  = true ->
  fst (submit user page box) = {| ChatBox.newMessage := ""; ChatBox.filePreview := None |} /\
  (snd (submit user page box) = [] <-> user = None \/ Chat.activeChat page = None) /\
  List.length (snd (submit user page box)) <= 1.
Proof.
  intros Hacc. unfold submit. rewrite (handleSendMessage_accepted box Hacc).
  cbn [flat_map fst snd]. rewrite app_nil_r. unfold Chat.handleSendMessage.
  split; [reflexivity|].
  destruct user as [uid|]; destruct (Chat.activeChat page) as [active|]; cbn;
    (split; [split; [try discriminate; auto | intros [H|H]; try discriminate; auto] | lia]).
Qed.

Lemma submit_outcomes_witness :
  submit (Some "V") Chat.init (Scenarios.typed "hello")
  = ({| ChatBox.newMessage := ""; ChatBox.filePreview := None |}, []).
Proof.
  pose proof (submit_outcomes (Some "V") Chat.init (Scenarios.typed "hello") eq_refl)
    as [Hbox [Hnone _]].
  destruct (submit (Some "V") Chat.init (Scenarios.typed "hello")) as [box' calls].
  cbn [fst snd] in *. rewrite Hbox. f_equal. apply Hnone. now right.
Defined.

(** Choosing a file stages it without touching the text, a second choice
    replaces the first, a cancelled choice changes nothing, and removing the
    file brings the component back to where it was before any was chosen. *)
Theorem handleFileChange_stages_one (f1 f2 : ChatBox.File) (n1 n2 : Z) (u1 u2 : string)
        (box : ChatBox.State) :
  ChatBox.newMessage (ChatBox.handleFileChange (Some f1) n1 u1 box) = ChatBox.newMessage box /\
  ChatBox.handleFileChange (Some f2) n2 u2 (ChatBox.handleFileChange (Some f1) n1 u1 box)
  = ChatBox.handleFileChange (Some f2) n2 u2 box /\
  ChatBox.handleFileChange None n2 u2 (ChatBox.handleFileChange (Some f1) n1 u1 box)
  = ChatBox.handleFileChange (Some f1) n1 u1 box /\
  ChatBox.handleRemoveFile (ChatBox.handleFileChange (Some f1) n1 u1 box)
  = ChatBox.handleRemoveFile box /\
  (ChatBox.filePreview box = None ->
   ChatBox.handleRemoveFile (ChatBox.handleFileChange (Some f1) n1 u1 box) = box).
Proof.
  repeat split. intros H. destruct box as [text preview]. cbn in *. now subst.
Qed.

(** With a file staged, a submission is accepted whatever the text, blank
    text included: the record inserted carries the text as it stands and
    nothing of the file, and the file is no longer staged afterwards. *)
Theorem attachment_only_submission (uid : string) (page : Chat.State) (active : ChatType.t)
        (f : ChatBox.File) (now : Z) (fileUrl : string) (box : ChatBox.State) :
  Chat.activeChat page = Some active ->
  submit (Some uid) page (ChatBox.handleFileChange (Some f) now fileUrl box)
  = ({| ChatBox.newMessage := ""; ChatBox.filePreview := None |},
     [ Store.Insert {| Store.new_chat_id := ChatType.id active;
                       Store.new_sender_id := uid;
                       Store.new_receiver_id := ChatType.participantId active;
                       Store.new_content := ChatBox.newMessage box;
                       Store.new_read := false |} ]).
Proof.
  intros Ha. unfold submit. rewrite handleSendMessage_accepted.
  - cbn [flat_map fst snd app]. unfold Chat.handleSendMessage. rewrite Ha. reflexivity.
  - cbn. apply orb_true_r.
Qed.

Lemma attachment_only_submission_witness :
  snd (submit (Some "V") (Chat.setActiveChat (Some Examples.c2Entry) Chat.init)
              (ChatBox.handleFileChange (Some Scenarios.catFile) 17 "blob:1"
                                        (Scenarios.typed "  ")))
  = [ Store.Insert {| Store.new_chat_id := "c2"; Store.new_sender_id := "V";
                      Store.new_receiver_id := "Q"; Store.new_content := "  ";
                      Store.new_read := false |} ].
Proof.
  rewrite (attachment_only_submission "V"
             (Chat.setActiveChat (Some Examples.c2Entry) Chat.init) Examples.c2Entry
             Scenarios.catFile 17 "blob:1" (Scenarios.typed "  ") eq_refl).
  reflexivity.
Defined.

(** The message a user sends to somebody else comes back through the insert
    notification: the handler appends it to the feed once, as sent and
    unread, and issues no read-state update for it. *)
Theorem own_message_echo (uid id : string) (ts : Z) nav (page : Chat.State)
        (active : ChatType.t) (box : ChatBox.State) db :
  Chat.activeChat page = Some active ->
  ChatType.participantId active <> uid ->
  Js.nonempty (Js.trim (ChatBox.newMessage box)) || ChatBox.staged (ChatBox.filePreview box)
  = true ->
  exists r,
    snd (submit (Some uid) page box) = [ Store.Insert r ] /\
    let db1 := Store.insert id ts r db in
    let payload := {| Chat.eventType := Chat.INSERT; Chat.new := Store.inserted_row id ts r |} in
    let result := Chat.onMessageChange (Some uid) nav payload db1 page in
    snd result = [] /\ snd (fst result) = db1 /\
    exists m,
      Chat.messages (fst (fst result)) = Chat.messages page ++ [ m ] /\
      MessageType.id m = id /\ MessageType.senderId m = uid /\
      MessageType.content m = ChatBox.newMessage box /\ MessageType.read m = false.
Proof.
  intros Ha Hp Hacc. eexists. split.
  - unfold submit. rewrite (handleSendMessage_accepted box Hacc).
    cbn [flat_map fst snd app]. unfold Chat.handleSendMessage. rewrite Ha. reflexivity.
  - cbv zeta. unfold Chat.onMessageChange.
    cbn [Chat.eventType Chat.new Store.inserted_row Store.receiver_id Store.msg_read
         Store.new_receiver_id Store.new_read Store.msg_id].
    apply String.eqb_neq in Hp. rewrite Hp. cbn [andb fst snd].
    split; [reflexivity|]. split; [reflexivity|].
    eexists. split; [rewrite fetchChats_messages; reflexivity|]. repeat split.
Qed.

Lemma own_message_echo_witness :
  exists r,
    snd (submit (Some "V") (Chat.setActiveChat (Some Examples.c2Entry) Chat.init)
                (Scenarios.typed "hello")) = [ Store.Insert r ] /\
    snd (Chat.onMessageChange (Some "V") None
           {| Chat.eventType := Chat.INSERT; Chat.new := Store.inserted_row "n1" 400 r |}
           (Store.insert "n1" 400 r Examples.dbTwo)
           (Chat.setActiveChat (Some Examples.c2Entry) Chat.init)) = [].
Proof.
  destruct (own_message_echo "V" "n1" 400 None
              (Chat.setActiveChat (Some Examples.c2Entry) Chat.init) Examples.c2Entry
              (Scenarios.typed "hello") Examples.dbTwo)
    as [r [Hr [Hcalls _]]]; [reflexivity | discriminate | reflexivity |].
  exists r. split; assumption.
Defined.

(** After a user was added, the new conversation heads the list and is the
    active one, its fetch is in flight, and a message sent next is inserted
    into that conversation for that user.  The entry is prepended even when
    the list already holds that conversation; the next [fetchChats] builds
    the list anew. *)
Theorem handleUserAdded_then_send (uid chatId userId username content : string)
        attachment nav db (st : Chat.State) :
  let st' := Chat.handleUserAdded (Some uid) chatId userId username st in
  List.length (Chat.chats st') = S (List.length (Chat.chats st)) /\
  option_map ChatType.id (hd_error (Chat.chats st')) = Some chatId /\
  Chat.activeChat st' = hd_error (Chat.chats st') /\
  Chat.inflight st' = Chat.inflight st ++ [ chatId ] /\
  Chat.messages st' = Chat.messages st /\
  Chat.handleSendMessage (Some uid) content attachment st'
  = [ Store.Insert {| Store.new_chat_id := chatId; Store.new_sender_id := uid;
                      Store.new_receiver_id := userId; Store.new_content := content;
                      Store.new_read := false |} ] /\
  Chat.chats (Chat.fetchChats (Some uid) nav db st')
  = Chat.chats (Chat.fetchChats (Some uid) nav db st).
Proof.
  cbv zeta. repeat split. now rewrite !fetchChats_chats.
Qed.

(** ** When the marker writes *)

(** The marker issues an update exactly when a viewer is signed in, the
    conversation id is not empty and the loaded set holds an unread message
    that the viewer did not send; in every other case (no viewer, nothing
    loaded, everything read or everything the viewer's own) it issues none. *)
Theorem markMessagesAsRead_calls_iff (user : option string) feed chatId :
  ChatBox.markMessagesAsRead user feed chatId <> [] <->
  exists uid m,
    user = Some uid /\ chatId <> "" /\
    In m feed /\ MessageType.read m = false /\ MessageType.senderId m <> uid.
Proof.
  split.
  - unfold ChatBox.markMessagesAsRead. destruct user as [uid|]; [|congruence].
    destruct (Nat.ltb 0 (List.length feed)); cbn [andb]; [|congruence].
    destruct (Js.nonempty chatId) eqn:Ec; [|congruence].
    destruct (filter _ feed) as [|m l] eqn:Ef; [cbn; congruence|].
    intros _. assert (Hm : In m (m :: l)) by now left. rewrite <- Ef in Hm.
    apply filter_In in Hm. destruct Hm as [Hin Hp]. apply andb_true_iff in Hp.
    destruct Hp as [Hr Hs]. apply negb_true_iff in Hr, Hs.
    exists uid, m. repeat split; try assumption.
    + unfold Js.nonempty in Ec. apply negb_true_iff in Ec. now apply String.eqb_neq.
    + now apply String.eqb_neq.
  - intros [uid [m [-> [Hc [Hin [Hr Hs]]]]]].
    rewrite (markMessagesAsRead_one uid feed chatId m); try assumption; [discriminate|].
    unfold Js.nonempty. apply String.eqb_neq in Hc. now rewrite Hc.
Qed.

(** ** Timers of the marker *)

Lemma clearTimeout_nextId id T :
  ChatBox.nextId (ChatBox.clearTimeout id T) = ChatBox.nextId T.
Proof. now destruct id. Qed.

Lemma change_armed t d T :
  (forall e, In e (ChatBox.armed T) -> ChatBox.cleanup T = Some (fst e)) ->
  ChatBox.armed (ChatBox.change t d T) = [ (ChatBox.nextId T, ((t + ChatBox.delay)%Z, d)) ] /\
  ChatBox.cleanup (ChatBox.change t d T) = Some (ChatBox.nextId T).
Proof.
  intros Hinv. unfold ChatBox.change, ChatBox.setTimeout.
  cbn [ChatBox.clearTimeout ChatBox.armed ChatBox.cleanup ChatBox.nextId].
  rewrite clearTimeout_nextId. cbn [ChatBox.advance ChatBox.nextId].
  split; [|reflexivity].
  assert (Hnone : ChatBox.armed (ChatBox.clearTimeout (ChatBox.cleanup (ChatBox.advance t T))
                                                      (ChatBox.advance t T)) = []).
  { unfold ChatBox.advance. cbn [ChatBox.cleanup].
    destruct (ChatBox.cleanup T) as [i|] eqn:Ec; cbn [ChatBox.clearTimeout ChatBox.armed].
    - apply filter_none. intros e He. apply filter_In in He. destruct He as [He _].
      apply Hinv in He. injection He as ->. now rewrite Nat.eqb_refl.
    - destruct (ChatBox.armed T) as [|e l] eqn:Ea; [reflexivity|].
      specialize (Hinv e (or_introl eq_refl)). discriminate Hinv. }
  now rewrite Hnone.
Qed.

Lemma burst_invariant changes :
  forall T,
    (forall e, In e (ChatBox.armed T) -> ChatBox.cleanup T = Some (fst e)) ->
    List.length (ChatBox.armed T) <= 1 ->
    (forall e, In e (ChatBox.armed (ChatBox.burst changes T)) ->
               ChatBox.cleanup (ChatBox.burst changes T) = Some (fst e)) /\
    List.length (ChatBox.armed (ChatBox.burst changes T)) <= 1.
Proof.
  induction changes as [|[t d] rest IH]; intros T Hinv Hlen; [now split|].
  cbn [ChatBox.burst]. destruct (change_armed t d T Hinv) as [Ha Hc].
  apply IH.
  - rewrite Ha, Hc. intros e [<-|[]]. reflexivity.
  - rewrite Ha. simpl. lia.
Qed.

(** Whatever the times of the changes, at most one timer of the marker is
    armed at any moment; when the component unmounts none is left and the
    marker does not run any more. *)
Theorem unmount_cancels (changes : list (Z * ChatBox.Deps)) (tEnd : Z) :
  let T := ChatBox.burst changes ChatBox.fresh in
  List.length (ChatBox.armed T) <= 1 /\
  ChatBox.armed (ChatBox.unmount T) = [] /\
  ChatBox.fired (ChatBox.advance tEnd (ChatBox.unmount T)) = ChatBox.fired T.
Proof.
  cbv zeta.
  destruct (burst_invariant changes ChatBox.fresh) as [Hinv Hlen];
    [intros e [] | simpl; lia |].
  set (T := ChatBox.burst changes ChatBox.fresh) in *.
  assert (Hnone : ChatBox.armed (ChatBox.unmount T) = []).
  { unfold ChatBox.unmount.
    destruct (ChatBox.cleanup T) as [i|] eqn:Ec; cbn [ChatBox.clearTimeout ChatBox.armed].
    - apply filter_none. intros e He. apply Hinv in He. injection He as ->.
      now rewrite Nat.eqb_refl.
    - destruct (ChatBox.armed T) as [|e l] eqn:Ea; [reflexivity|].
      specialize (Hinv e (or_introl eq_refl)). discriminate Hinv. }
  split; [exact Hlen|]. split; [exact Hnone|].
  unfold ChatBox.advance. cbn [ChatBox.fired]. rewrite Hnone. cbn [filter map].
  rewrite app_nil_r. unfold ChatBox.unmount.
  destruct (ChatBox.cleanup T); reflexivity.
Qed.





(** ** User levels *)

(** The level follows the number of completed tasks by the thresholds 5, 20
    and 50; the target shown beside the progress bar never decreases as
    tasks are completed, and it is above the number completed exactly as
    long as fewer than 100 tasks are completed. *)
Theorem getUserLevel_thresholds (completed : Z) :
  (UserStatistics.level (UserStatistics.getUserLevel completed) = "Beginner"
   <-> (completed < 5)%Z) /\
  (UserStatistics.level (UserStatistics.getUserLevel completed) = "Regular"
   <-> (5 <= completed < 20)%Z) /\
  (UserStatistics.level (UserStatistics.getUserLevel completed) = "Pro"
   <-> (20 <= completed < 50)%Z) /\
  (UserStatistics.level (UserStatistics.getUserLevel completed) = "Expert"
   <-> (50 <= completed)%Z) /\
  ((completed < UserStatistics.nextTarget (UserStatistics.getUserLevel completed))%Z
   <-> (completed < 100)%Z) /\
  (forall more, (completed <= more)%Z ->
                (UserStatistics.nextTarget (UserStatistics.getUserLevel completed)
                 <= UserStatistics.nextTarget (UserStatistics.getUserLevel more))%Z).
Proof.
  assert (Hcase : forall c,
             ((c < 5)%Z /\ UserStatistics.getUserLevel c
                           = {| UserStatistics.level := "Beginner"; UserStatistics.badge := "New";
                                UserStatistics.color := "bg-blue-500" |}) \/
             ((5 <= c < 20)%Z /\ UserStatistics.getUserLevel c
                           = {| UserStatistics.level := "Regular"; UserStatistics.badge := "Bronze";
                                UserStatistics.color := "bg-amber-600" |}) \/
             ((20 <= c < 50)%Z /\ UserStatistics.getUserLevel c
                           = {| UserStatistics.level := "Pro"; UserStatistics.badge := "Silver";
                                UserStatistics.color := "bg-gray-400" |}) \/
             ((50 <= c)%Z /\ UserStatistics.getUserLevel c
                           = {| UserStatistics.level := "Expert"; UserStatistics.badge := "Gold";
                                UserStatistics.color := "bg-yellow-500" |})).
  { intros c. unfold UserStatistics.getUserLevel.
    destruct (Z.leb 50 c) eqn:E50; [apply Z.leb_le in E50; right; right; right; split; [lia|reflexivity]|].
    destruct (Z.leb 20 c) eqn:E20; [apply Z.leb_le in E20; apply Z.leb_gt in E50;
                                    right; right; left; split; [lia|reflexivity]|].
    destruct (Z.leb 5 c) eqn:E5; apply Z.leb_gt in E50, E20.
    - apply Z.leb_le in E5. right; left. split; [lia|reflexivity].
    - apply Z.leb_gt in E5. left. split; [lia|reflexivity]. }
  destruct (Hcase completed) as [[H E]|[[H E]|[[H E]|[H E]]]]; rewrite E; cbn;
    (split; [split; [intros Hx; try discriminate Hx; lia | intros Hx; try reflexivity; lia]|]);
    (split; [split; [intros Hx; try discriminate Hx; lia | intros Hx; try reflexivity; lia]|]);
    (split; [split; [intros Hx; try discriminate Hx; lia | intros Hx; try reflexivity; lia]|]);
    (split; [split; [intros Hx; try discriminate Hx; lia | intros Hx; try reflexivity; lia]|]);
    (split; [lia|]);
    intros more Hm;
    destruct (Hcase more) as [[H' E']|[[H' E']|[[H' E']|[H' E']]]]; rewrite E'; cbn; lia.
Qed.

(** ** The leaderboard *)

Lemma StronglySorted_app_inv {A} (R : A -> A -> Prop) l1 l2 :
  StronglySorted R (l1 ++ l2) ->
  forall a b, In a l1 -> In b l2 -> R a b.
Proof.
  induction l1 as [|x l1 IH]; intros Hs a b Ha Hb; [contradiction|].
  cbn [app] in Hs. inversion Hs as [|? ? Hrest Hall]; subst.
  destruct Ha as [<-|Ha].
  - rewrite Forall_forall in Hall. apply Hall. apply in_or_app. now right.
  - now apply IH.
Qed.

Section LeaderboardFacts.

Context {number : Type} (gtb : number -> number -> bool).
Context (profileOf : string -> option Leaderboard.Profile).

Lemma aggregate_snoc l (t : Leaderboard.TaskRow number) :
  Leaderboard.aggregate number gtb (l ++ [t])
  = match Leaderboard.usable number t with
    | Some (i, r) => Leaderboard.record_task number gtb i r (Leaderboard.aggregate number gtb l)
    | None => Leaderboard.aggregate number gtb l
    end.
Proof. unfold Leaderboard.aggregate. rewrite fold_left_app. reflexivity. Qed.

Lemma tasksOf_snoc i l (t : Leaderboard.TaskRow number) :
  Leaderboard.tasksOf number i (l ++ [t])
  = Leaderboard.tasksOf number i l
    + match Leaderboard.usable number t with
      | Some (j, _) => if String.eqb j i then 1 else 0
      | None => 0
      end.
Proof.
  unfold Leaderboard.tasksOf. rewrite filter_app, length_app. f_equal.
  cbn [filter]. destruct (Leaderboard.usable number t) as [[j r]|]; [|reflexivity].
  now destruct (String.eqb j i).
Qed.

(** What the map holds for [j] after one more row of [i] was recorded. *)
Lemma entryOf_record_task i r m j :
  Leaderboard.entryOf number j (Leaderboard.record_task number gtb i r m)
  = if String.eqb j i
    then Some match Leaderboard.entryOf number i m with
              | Some e =>
                  {| Leaderboard.entry_id := Leaderboard.entry_id number e;
                     Leaderboard.entry_rating :=
                       if gtb r (Leaderboard.entry_rating number e) then r
                       else Leaderboard.entry_rating number e;
                     Leaderboard.entry_tasksCount := Leaderboard.entry_tasksCount number e + 1 |}
              | None =>
                  {| Leaderboard.entry_id := i; Leaderboard.entry_rating := r;
                     Leaderboard.entry_tasksCount := 1 |}
              end
    else Leaderboard.entryOf number j m.
Proof.
  unfold Leaderboard.entryOf.
  induction m as [|e rest IH]; cbn [Leaderboard.record_task find Leaderboard.entry_id].
  - rewrite (String.eqb_sym i j). now destruct (String.eqb j i).
  - destruct (String.eqb (Leaderboard.entry_id number e) i) eqn:Ei;
      cbn [find Leaderboard.entry_id].
    + apply String.eqb_eq in Ei. rewrite Ei, (String.eqb_sym i j).
      now destruct (String.eqb j i).
    + destruct (String.eqb j i) eqn:Eji.
      * apply String.eqb_eq in Eji. subst j. rewrite Ei.
        rewrite IH. rewrite ?String.eqb_refl. reflexivity.
      * destruct (String.eqb (Leaderboard.entry_id number e) j); [reflexivity|].
        rewrite IH. rewrite ?Eji. reflexivity.
Qed.

Lemma record_task_ids i r m :
  map (Leaderboard.entry_id number) (Leaderboard.record_task number gtb i r m)
  = if existsb (String.eqb i) (map (Leaderboard.entry_id number) m)
    then map (Leaderboard.entry_id number) m
    else map (Leaderboard.entry_id number) m ++ [i].
Proof.
  induction m as [|e rest IH]; [reflexivity|].
  cbn [Leaderboard.record_task map existsb]. rewrite (String.eqb_sym i).
  destruct (String.eqb (Leaderboard.entry_id number e) i) eqn:E; cbn [orb map Leaderboard.entry_id].
  - reflexivity.
  - rewrite IH. now destruct (existsb _ _).
Qed.

Lemma aggregate_NoDup l :
  NoDup (map (Leaderboard.entry_id number) (Leaderboard.aggregate number gtb l)).
Proof.
  induction l as [|t l IH] using rev_ind; [constructor|].
  rewrite aggregate_snoc. destruct (Leaderboard.usable number t) as [[i r]|]; [|exact IH].
  rewrite record_task_ids. destruct (existsb _ _) eqn:E; [exact IH|].
  apply NoDup_app; [exact IH | repeat constructor; intros [] |].
  intros x Hx [<-|[]]. apply existsb_eqb_In in Hx. congruence.
Qed.

(** Every person with a usable row gets exactly one entry, whose task count
    is the number of that person's usable rows; rows without a person or
    without a numeric rating count for nobody. *)
Theorem aggregate_counts_tasks (tasksData : list (Leaderboard.TaskRow number)) (i : string) :
  NoDup (map (Leaderboard.entry_id number) (Leaderboard.aggregate number gtb tasksData)) /\
  match Leaderboard.entryOf number i (Leaderboard.aggregate number gtb tasksData) with
  | Some e =>
      Leaderboard.entry_id number e = i /\
      Leaderboard.entry_tasksCount number e = Leaderboard.tasksOf number i tasksData /\
      0 < Leaderboard.tasksOf number i tasksData
  | None => Leaderboard.tasksOf number i tasksData = 0
  end.
Proof.
  split; [apply aggregate_NoDup|].
  induction tasksData as [|t l IH] using rev_ind; [reflexivity|].
  rewrite aggregate_snoc, tasksOf_snoc.
  destruct (Leaderboard.usable number t) as [[j r]|]; [|now rewrite Nat.add_0_r].
  rewrite entryOf_record_task. rewrite (String.eqb_sym j i).
  destruct (String.eqb i j) eqn:E; [|now rewrite Nat.add_0_r].
  apply String.eqb_eq in E. subst j.
  destruct (Leaderboard.entryOf number i (Leaderboard.aggregate number gtb l)) as [e|];
    cbn [Leaderboard.entry_id Leaderboard.entry_tasksCount].
  - destruct IH as [Hid [Hc Hp]]. repeat split; [assumption | lia | lia].
  - rewrite IH. repeat split; lia.
Qed.

Hypothesis gtb_irrefl : forall a, gtb a a = false.
Hypothesis gtb_trans : forall a b c, gtb a b = true -> gtb b c = true -> gtb a c = true.
Hypothesis gtb_cotrans :
  forall a b c, gtb a c = true -> gtb a b = true \/ gtb b c = true.

(** The rating kept for a person is the rating of one of that person's
    usable rows, and no usable row of that person has a greater one. *)
Theorem aggregate_keeps_best_rating (tasksData : list (Leaderboard.TaskRow number))
        (i : string) (e : Leaderboard.Entry number) :
  Leaderboard.entryOf number i (Leaderboard.aggregate number gtb tasksData) = Some e ->
  (exists t, In t tasksData /\
             Leaderboard.usable number t = Some (i, Leaderboard.entry_rating number e)) /\
  (forall t r, In t tasksData -> Leaderboard.usable number t = Some (i, r) ->
               gtb r (Leaderboard.entry_rating number e) = false).
Proof.
  revert e. induction tasksData as [|t l IH] using rev_ind; intros e He; [discriminate He|].
  rewrite aggregate_snoc in He.
  assert (Hold : forall e0, Leaderboard.entryOf number i (Leaderboard.aggregate number gtb l) = Some e0 ->
                 Leaderboard.entry_rating number e = Leaderboard.entry_rating number e0 ->
                 (exists t0, In t0 (l ++ [t]) /\
                    Leaderboard.usable number t0 = Some (i, Leaderboard.entry_rating number e)) /\
                 (forall t0 r, In t0 l -> Leaderboard.usable number t0 = Some (i, r) ->
                    gtb r (Leaderboard.entry_rating number e) = false)).
  { intros e0 He0 Hr. destruct (IH e0 He0) as [[t0 [Hin Hu]] Hmax]. rewrite Hr. split.
    - exists t0. split; [apply in_or_app; now left | assumption].
    - exact Hmax. }
  destruct (Leaderboard.usable number t) as [[j r]|] eqn:Eu.
  - rewrite entryOf_record_task in He. destruct (String.eqb i j) eqn:Eij.
    + apply String.eqb_eq in Eij. subst j.
      destruct (Leaderboard.entryOf number i (Leaderboard.aggregate number gtb l)) as [e0|] eqn:E0;
        injection He as <-; cbn [Leaderboard.entry_rating].
      * destruct (IH e0 eq_refl) as [[t0 [Hin Hu]] Hmax].
        destruct (gtb r (Leaderboard.entry_rating number e0)) eqn:Eg.
        -- split.
           ++ exists t. split; [apply in_or_app; right; now left | assumption].
           ++ intros t1 r1 Hin1 Hu1. apply in_app_or in Hin1. destruct Hin1 as [Hin1|[<-|[]]].
              ** destruct (gtb r1 r) eqn:E1; [|reflexivity].
                 specialize (Hmax t1 r1 Hin1 Hu1).
                 pose proof (gtb_trans _ _ _ E1 Eg) as Hc. congruence.
              ** rewrite Eu in Hu1. injection Hu1 as <-. apply gtb_irrefl.
        -- split.
           ++ exists t0. split; [apply in_or_app; now left | assumption].
           ++ intros t1 r1 Hin1 Hu1. apply in_app_or in Hin1. destruct Hin1 as [Hin1|[<-|[]]].
              ** now apply (Hmax t1 r1).
              ** rewrite Eu in Hu1. now injection Hu1 as <-.
      * split.
        -- exists t. split; [apply in_or_app; right; now left | assumption].
        -- intros t1 r1 Hin1 Hu1. apply in_app_or in Hin1. destruct Hin1 as [Hin1|[<-|[]]].
           ++ exfalso.
              pose proof (aggregate_counts_tasks l i) as [_ Hc]. rewrite E0 in Hc.
              unfold Leaderboard.tasksOf in Hc.
              assert (Hf : In t1 (filter (fun task => match Leaderboard.usable number task with
                                                      | Some (j, _) => String.eqb j i
                                                      | None => false
                                                      end) l)).
              { apply filter_In. split; [assumption|]. rewrite Hu1. apply String.eqb_refl. }
              destruct (filter _ l); [contradiction | discriminate Hc].
           ++ rewrite Eu in Hu1. injection Hu1 as <-. apply gtb_irrefl.
    + destruct (Hold e He eq_refl) as [Hex Hmax]. split; [exact Hex|].
      intros t1 r1 Hin1 Hu1. apply in_app_or in Hin1. destruct Hin1 as [Hin1|[<-|[]]].
      * now apply (Hmax t1 r1).
      * rewrite Eu in Hu1. injection Hu1 as <- _. rewrite String.eqb_refl in Eij. discriminate.
  - destruct (Hold e He eq_refl) as [Hex Hmax]. split; [exact Hex|].
    intros t1 r1 Hin1 Hu1. apply in_app_or in Hin1. destruct Hin1 as [Hin1|[<-|[]]].
    + now apply (Hmax t1 r1).
    + rewrite Eu in Hu1. discriminate.
Qed.

Lemma byRating_total x y :
  Leaderboard.byRating number gtb x y = false -> Leaderboard.byRating number gtb y x = true.
Proof.
  unfold Leaderboard.byRating. intros H. apply negb_false_iff in H. apply negb_true_iff.
  destruct (gtb (Leaderboard.rating number x) (Leaderboard.rating number y)) eqn:E; [|reflexivity].
  pose proof (gtb_trans _ _ _ H E) as Hc. rewrite gtb_irrefl in Hc. discriminate.
Qed.

Lemma byRating_trans x y z :
  Leaderboard.byRating number gtb x y = true -> Leaderboard.byRating number gtb y z = true ->
  Leaderboard.byRating number gtb x z = true.
Proof.
  unfold Leaderboard.byRating. intros H1 H2. apply negb_true_iff in H1, H2. apply negb_true_iff.
  destruct (gtb (Leaderboard.rating number z) (Leaderboard.rating number x)) eqn:E; [|reflexivity].
  destruct (gtb_cotrans _ (Leaderboard.rating number y) _ E); congruence.
Qed.

(** The list shown holds at most ten people, the ones the aggregation
    produced ranked by rating, highest first; nobody left out has a greater
    rating than anybody shown. *)
Theorem top_ranks_by_rating (tasksData : list (Leaderboard.TaskRow number)) :
  let ranked := Leaderboard.ranked number gtb profileOf tasksData in
  let top := Leaderboard.top number gtb profileOf tasksData in
  List.length top <= 10 /\
  Permutation ranked
              (map (Leaderboard.toUser number profileOf) (Leaderboard.aggregate number gtb tasksData)) /\
  ranked = top ++ skipn 10 ranked /\
  StronglySorted
    (fun a b => gtb (Leaderboard.rating number b) (Leaderboard.rating number a) = false) ranked /\
  (forall a b, In a top -> In b (skipn 10 ranked) ->
               gtb (Leaderboard.rating number b) (Leaderboard.rating number a) = false).
Proof.
  cbv zeta. unfold Leaderboard.top.
  set (ranked := Leaderboard.ranked number gtb profileOf tasksData).
  assert (Hs : StronglySorted
                 (fun a b => gtb (Leaderboard.rating number b) (Leaderboard.rating number a) = false)
                 ranked).
  { eapply StronglySorted_weaken;
      [|apply (order_by_sorted (Leaderboard.byRating number gtb));
        [apply byRating_total | apply byRating_trans]].
    intros a b H. unfold Leaderboard.byRating in H. now apply negb_true_iff in H. }
  split; [apply firstn_le_length|]. split; [apply order_by_perm|].
  split; [symmetry; apply firstn_skipn|]. split; [exact Hs|].
  intros a b Ha Hb. rewrite <- (firstn_skipn 10 ranked) in Hs.
  now apply (StronglySorted_app_inv _ _ _ Hs).
Qed.

End LeaderboardFacts.

Lemma Zgtb_irrefl a : Z.gtb a a = false.
Proof. rewrite Z.gtb_ltb. apply Z.ltb_irrefl. Qed.

Lemma Zgtb_trans a b c : Z.gtb a b = true -> Z.gtb b c = true -> Z.gtb a c = true.
Proof. rewrite !Z.gtb_ltb, !Z.ltb_lt. lia. Qed.

Lemma Zgtb_cotrans a b c : Z.gtb a c = true -> Z.gtb a b = true \/ Z.gtb b c = true.
Proof. rewrite !Z.gtb_ltb, !Z.ltb_lt. lia. Qed.

Lemma aggregate_keeps_best_rating_witness :
  Leaderboard.entryOf Z "P" (Leaderboard.aggregate Z Z.gtb Scenarios.ratedTasks)
  = Some {| Leaderboard.entry_id := "P"; Leaderboard.entry_rating := 4%Z;
            Leaderboard.entry_tasksCount := 3 |} /\
  forall t r, In t Scenarios.ratedTasks -> Leaderboard.usable Z t = Some ("P", r) ->
              Z.gtb r 4 = false.
Proof.
  split; [reflexivity|].
  apply (aggregate_keeps_best_rating Z.gtb Zgtb_irrefl Zgtb_trans Scenarios.ratedTasks "P"
           {| Leaderboard.entry_id := "P"; Leaderboard.entry_rating := 4%Z;
              Leaderboard.entry_tasksCount := 3 |}).
  reflexivity.
Defined.

Lemma top_ranks_by_rating_witness :
  map (fun u => (Leaderboard.id Z u, Leaderboard.rating Z u, Leaderboard.tasksCount Z u))
      (Leaderboard.top Z Z.gtb Scenarios.noProfile Scenarios.ratedTasks)
  = [ ("Q", 5%Z, 1); ("P", 4%Z, 3) ] /\
  StronglySorted (fun a b => Z.gtb (Leaderboard.rating Z b) (Leaderboard.rating Z a) = false)
                 (Leaderboard.ranked Z Z.gtb Scenarios.noProfile Scenarios.ratedTasks).
Proof.
  split; [reflexivity|].
  apply (top_ranks_by_rating Z.gtb Scenarios.noProfile Zgtb_irrefl Zgtb_trans Zgtb_cotrans
           Scenarios.ratedTasks).
Defined.

(** ** What a change notification does to the feed *)

(** The handler only ever appends to the feed: an insert notification adds
    one message at the end, whatever its timestamp, and an update or delete
    notification leaves the feed as it is, so a message deleted or marked
    read in the store stays in the feed unchanged until the next fetch. *)
Theorem onMessageChange_feed_grows (user : option string) nav (payload : Chat.Payload) db st :
  let st' := fst (fst (Chat.onMessageChange user nav payload db st)) in
  exists added,
    Chat.messages st' = Chat.messages st ++ added /\
    List.length added <= 1 /\
    (Chat.eventType payload = Chat.INSERT ->
     added = [ Chat.formatMessage db (Chat.new payload) ]) /\
    (Chat.eventType payload <> Chat.INSERT -> added = []).
Proof.
  cbv zeta. destruct (Chat.eventType payload) eqn:E.
  - exists [ Chat.formatMessage db (Chat.new payload) ].
    split; [now apply onMessageChange_insert_appends|].
    split; [simpl; lia|]. split; [reflexivity | congruence].
  - exists []. unfold Chat.onMessageChange. rewrite E. cbn [fst].
    rewrite fetchChats_messages, app_nil_r.
    split; [reflexivity|]. split; [simpl; lia|]. split; [discriminate | reflexivity].
  - exists []. unfold Chat.onMessageChange. rewrite E. cbn [fst].
    rewrite fetchChats_messages, app_nil_r.
    split; [reflexivity|]. split; [simpl; lia|]. split; [discriminate | reflexivity].
Qed.

(** ** The debounce of the marker, for every burst *)



